(** * Anaya loan tools: amortization, savings projection and dynamic pricing

    A shallow embedding of [src/tools/loan_tools.py] (the EMI, savings,
    dynamic pricing and rate improvement tools) and of the two formatters of
    [src/util/utils.py], with their properties.

    Numbers.  The tools compute on Python [float]s, and two embeddings of
    them are used.

    - Exact.  Amounts, rates and scores are rationals [Q], tenures in months
      are integers [Z], and every operation is exact.  This embedding gives
      the gates, the branches taken, the shape of the texts and the figures
      up to rounding.  Two rationals are the same number when they are
      related by [==] ([Qeq]).  The EMI expression differs from the
      interpreter's in two places: where binary64 rounds the growth factor
      [1 + monthly_rate] to 1.0, or overflows in the power, the interpreter
      raises and the tool returns its failure sentence, while the exact
      expression has a value.

    - Binary64 ([Binary64]).  The running sum [rate_adjustment] of the
      scoring pass and the EMI expression on IEEE 754 binary64 numbers,
      Rocq's primitive floats, operation by operation as the interpreter
      evaluates them.  The running sum is related to the exact sum of the
      table entries by [scoring_pass_reachable].

    Exceptions.  A computation that can raise is a value of [Exc A]
    ([None] = an exception was raised).  Every tool wraps its body in
    [try ... except Exception] and returns a fixed sentence when anything
    was raised: [try_except].

    Text.  A tool returns a string.  A formatted f-string is kept as the
    record (or list of blocks) of the values it interpolates; the fixed
    sentences are kept as the strings they are. *)

From Stdlib Require Import QArith Qpower Qround Qabs ZArith NArith Lqa Lia.
From Stdlib Require Import Bool Ascii String List DecimalString DecimalN.
From Stdlib Require Import PrimFloat.
From Stdlib Require SpecFloat FloatOps FloatAxioms.
Import ListNotations.

(** A decimal literal in [float_scope] is the binary64 number nearest to
    it, as in Python. *)
#[local] Set Warnings "-inexact-float".

Open Scope Q_scope.

(** ** Python numbers *)

Module Py.

(** [x >= y], [x > y] and [x < y] on numbers. *)
Definition ge (x y : Q) : bool := Qle_bool y x.
Definition gt (x y : Q) : bool := negb (Qle_bool x y).
Definition lt (x y : Q) : bool := negb (Qle_bool y x).

(** Truth value of a number in [if x], [not x] and [all([...])]:
    zero is false, everything else is true. *)
Definition truthy (x : Q) : bool := negb (Qeq_bool x 0).
Definition truthyZ (n : Z) : bool := negb (n =? 0)%Z.

(** [max(a, b)] returns [b] only when [b > a]; [min(a, b)] returns [b]
    only when [b < a]. *)
Definition max (a b : Q) : Q := if gt b a then b else a.
Definition min (a b : Q) : Q := if lt b a then b else a.

End Py.

Declare Scope py_scope.
Delimit Scope py_scope with py.
Notation "x >=? y" := (Py.ge x y) (at level 70, no associativity) : py_scope.
Notation "x >? y" := (Py.gt x y) (at level 70, no associativity) : py_scope.
Notation "x <? y" := (Py.lt x y) (at level 70, no associativity) : py_scope.
Open Scope py_scope.

(** ** Exceptions *)

Definition Exc (A : Type) : Type := option A.

Definition ret {A : Type} (a : A) : Exc A := Some a.

Definition bind {A B : Type} (c : Exc A) (k : A -> Exc B) : Exc B :=
  match c with
  | Some a => k a
  | None => None
  end.

Notation "x <- c ;; k" := (bind c (fun x => k))
  (at level 61, c at next level, right associativity) : py_scope.

(** [n / d], exactly: raises ZeroDivisionError when [d] is zero. *)
Definition div (n d : Q) : Exc Q :=
  if Qeq_bool d 0 then None else Some (n / d).

(** [b ** e] with an int exponent, exactly: raises ZeroDivisionError when
    a zero base is raised to a negative power.  The OverflowError of a
    binary64 power that exceeds the format is in [Binary64.pow]. *)
Definition pow (b : Q) (e : Z) : Exc Q :=
  if Qeq_bool b 0 && (e <? 0)%Z then None else Some (b ^ e).

(** What a tool returns: the formatted text [Text], kept as the values it
    interpolates, or one of the fixed sentences [Message]. *)
Inductive ToolOutput (A : Type) : Type :=
| Text (body : A)
| Message (sentence : string).

Arguments Text {A} body.
Arguments Message {A} sentence.

(** [try: return body  except Exception: return sentence]. *)
Definition try_except {A : Type} (body : Exc (ToolOutput A)) (sentence : string)
  : ToolOutput A :=
  match body with
  | Some out => out
  | None => Message sentence
  end.

(** ** The amortization formula

    The expression that appears at every EMI site of the module:
    [(p * r * (1 + r) ** n) / ((1 + r) ** n - 1)] for a monthly rate [r],
    in exact arithmetic; [Binary64.emi_formula] is its binary64
    evaluation. *)
Definition emi_formula (principal monthly_rate : Q) (months : Z) : Exc Q :=
  growth <- pow (1 + monthly_rate) months ;;
  growth' <- pow (1 + monthly_rate) months ;;
  div (principal * monthly_rate * growth) (growth' - 1).

(** The reducing-balance formula as a number, written from section 4.1 of
    the specification:
    [emi = principal * monthly_rate * (1+monthly_rate)^tenure
           / ((1+monthly_rate)^tenure - 1)]. *)
Definition reducing_balance_emi (principal monthly_rate : Q) (months : Z) : Q :=
  principal * monthly_rate * (1 + monthly_rate) ^ months
  / ((1 + monthly_rate) ^ months - 1).

(** ** calculate_emi *)

(** The values interpolated in the "EMI Calculation:" text. *)
Record EmiBreakdown : Type := {
  eb_loan_amount : Q;
  eb_interest_rate : Q;
  eb_tenure_months : Z;
  eb_emi : Q;
  eb_total_amount : Q;
  eb_total_interest : Q
}.

Definition unable_emi : string :=
  "Unable to calculate EMI. Please check the input parameters.".

Definition calculate_emi (loan_amount interest_rate : Q) (tenure_months : Z)
  : ToolOutput EmiBreakdown :=
  try_except
    (let monthly_rate := (interest_rate / 100) / 12 in
     emi <- emi_formula loan_amount monthly_rate tenure_months ;;
     let total_amount := emi * inject_Z tenure_months in
     let total_interest := total_amount - loan_amount in
     ret (Text {| eb_loan_amount := loan_amount;
                  eb_interest_rate := interest_rate;
                  eb_tenure_months := tenure_months;
                  eb_emi := emi;
                  eb_total_amount := total_amount;
                  eb_total_interest := total_interest |}))
    unable_emi.

(** ** The customer profile

    [st.session_state.get('customer_data', {})]: a dictionary built from one
    row of the customer table.  A key may be absent; [None] is an absent
    key and [get field default] is [customer_data.get(key, default)].
    Only the keys the calculators read are kept, and a key that is present
    holds a value of the kind the data model gives it: a number, a boolean
    or a string. *)
Record CustomerData : Type := {
  loan_offer : option Q;
  interest_rate : option Q;
  tenure : option Z;
  processing_fee : option Q;
  account_age_years : option Q;
  is_salary_account : option bool;
  avg_monthly_balance : option Q;
  credit_score : option Q;
  loan_history_score : option string;
  monthly_income : option Q;
  employment_type : option string;
  job_stability_years : option Q;
  is_festive_season : option bool;
  has_existing_loans : option bool
}.

Definition get {A : Type} (field : option A) (default : A) : A :=
  match field with
  | Some v => v
  | None => default
  end.

(** The empty dictionary [{}]. *)
Definition empty_customer_data : CustomerData :=
  {| loan_offer := None; interest_rate := None; tenure := None;
     processing_fee := None; account_age_years := None;
     is_salary_account := None; avg_monthly_balance := None;
     credit_score := None; loan_history_score := None;
     monthly_income := None; employment_type := None;
     job_stability_years := None; is_festive_season := None;
     has_existing_loans := None |}.

(** The same dictionary with the key [credit_score] set. *)
Definition with_credit_score (customer_data : CustomerData) (score : Q)
  : CustomerData :=
  {| loan_offer := loan_offer customer_data;
     interest_rate := interest_rate customer_data;
     tenure := tenure customer_data;
     processing_fee := processing_fee customer_data;
     account_age_years := account_age_years customer_data;
     is_salary_account := is_salary_account customer_data;
     avg_monthly_balance := avg_monthly_balance customer_data;
     credit_score := Some score;
     loan_history_score := loan_history_score customer_data;
     monthly_income := monthly_income customer_data;
     employment_type := employment_type customer_data;
     job_stability_years := job_stability_years customer_data;
     is_festive_season := is_festive_season customer_data;
     has_existing_loans := has_existing_loans customer_data |}.

(** ** calculate_loan_savings *)

(** The result string is built by [result = f"..."] followed by
    [result += f"..."]: one block per f-string, in the order appended. *)
Inductive SavingsBlock : Type :=
| CurrentLoanStructure (current_emi current_interest current_total : Q)
| WithPrepayment (prepayment_amount new_emi savings new_total : Q)
| TenureOption (new_tenure : Z) (new_emi difference : Q) (save : bool).

Definition missing_loan_parameters : string :=
  "Unable to calculate savings. Missing loan parameters.".

Definition unable_savings : string :=
  "Unable to calculate loan savings at the moment.".

(** [for x in items: body], the body updating the accumulated state and
    possibly raising. *)
Fixpoint for_in {A S : Type} (items : list A) (body : A -> S -> Exc S) (s : S)
  : Exc S :=
  match items with
  | [] => ret s
  | x :: rest => s' <- body x s ;; for_in rest body s'
  end.

(** One turn of [for new_tenure in [12, 24, 36, 60]]. *)
Definition tenure_option (loan_amount monthly_rate current_interest : Q)
    (tenure new_tenure : Z) (result : list SavingsBlock)
  : Exc (list SavingsBlock) :=
  if negb (new_tenure =? tenure)%Z then
    new_emi <- emi_formula loan_amount monthly_rate new_tenure ;;
    let new_total := new_emi * inject_Z new_tenure in
    let new_interest := new_total - loan_amount in
    let difference := current_interest - new_interest in
    ret (result ++ [TenureOption new_tenure new_emi difference (difference >? 0)])
  else ret result.

Definition calculate_loan_savings (customer_data : CustomerData)
    (prepayment_amount : Q) : ToolOutput (list SavingsBlock) :=
  try_except
    (let loan_amount := get (loan_offer customer_data) 0 in
     let interest_rate := get (interest_rate customer_data) 0 in
     let tenure := get (tenure customer_data) 12%Z in
     if negb (Py.truthy loan_amount && Py.truthy interest_rate
              && Py.truthyZ tenure)
     then ret (Message missing_loan_parameters)
     else
       let monthly_rate := (interest_rate / 100) / 12 in
       current_emi <- emi_formula loan_amount monthly_rate tenure ;;
       let current_total := current_emi * inject_Z tenure in
       let current_interest := current_total - loan_amount in
       let result :=
         [CurrentLoanStructure current_emi current_interest current_total] in
       result <-
         (if prepayment_amount >? 0 then
            let remaining_principal := loan_amount - prepayment_amount in
            if remaining_principal >? 0 then
              new_emi <- emi_formula remaining_principal monthly_rate tenure ;;
              let new_total :=
                new_emi * inject_Z tenure + prepayment_amount in
              let new_interest := new_total - loan_amount in
              let savings := current_interest - new_interest in
              ret (result ++
                   [WithPrepayment prepayment_amount new_emi savings new_total])
            else ret result
          else
            for_in [12; 24; 36; 60]%Z
              (tenure_option loan_amount monthly_rate current_interest tenure)
              result) ;;
       ret (Text result))
    unable_savings.



(** The candidate tenures other than the current one. *)
Definition other_tenures (tenure : Z) : list Z :=
  filter (fun new_tenure => negb (new_tenure =? tenure)%Z) [12; 24; 36; 60]%Z.

(** ** calculate_dynamic_pricing *)

(** The three accumulators of the scoring pass. *)
Record Factors : Type := {
  rate_adjustment : Q;
  processing_fee_multiplier : Q;
  max_loan_multiplier : Q
}.

(** [rate_adjustment += d], [rate_adjustment -= d],
    [processing_fee_multiplier *= k], [max_loan_multiplier *= k]. *)
Definition rate_add (d : Q) (f : Factors) : Factors :=
  {| rate_adjustment := rate_adjustment f + d;
     processing_fee_multiplier := processing_fee_multiplier f;
     max_loan_multiplier := max_loan_multiplier f |}.

Definition rate_sub (d : Q) (f : Factors) : Factors :=
  {| rate_adjustment := rate_adjustment f - d;
     processing_fee_multiplier := processing_fee_multiplier f;
     max_loan_multiplier := max_loan_multiplier f |}.

Definition fee_mul (k : Q) (f : Factors) : Factors :=
  {| rate_adjustment := rate_adjustment f;
     processing_fee_multiplier := processing_fee_multiplier f * k;
     max_loan_multiplier := max_loan_multiplier f |}.

Definition limit_mul (k : Q) (f : Factors) : Factors :=
  {| rate_adjustment := rate_adjustment f;
     processing_fee_multiplier := processing_fee_multiplier f;
     max_loan_multiplier := max_loan_multiplier f * k |}.

(** [rate_adjustment = 0.0], both multipliers [1.0]. *)
Definition initial_factors : Factors :=
  {| rate_adjustment := 0.0;
     processing_fee_multiplier := 1.0;
     max_loan_multiplier := 1.0 |}.

(** Customer relationship factors. *)

Definition account_age_factor (account_age_years : Q) (f : Factors) : Factors :=
  if account_age_years >=? 5 then rate_sub 0.5 f
  else if account_age_years >=? 2 then rate_sub 0.25 f
  else if account_age_years <? 1 then rate_add 0.25 f
  else f.

Definition salary_account_factor (is_salary_account : bool) (f : Factors)
  : Factors :=
  if is_salary_account then fee_mul 0.8 (rate_sub 0.3 f) else f.

Definition balance_factor (avg_monthly_balance : Q) (f : Factors) : Factors :=
  if avg_monthly_balance >=? 100000 then limit_mul 1.2 (rate_sub 0.4 f)
  else if avg_monthly_balance >=? 50000 then limit_mul 1.1 (rate_sub 0.2 f)
  else if avg_monthly_balance <? 10000 then rate_add 0.3 f
  else f.

(** Credit profile factors. *)

Definition credit_score_factor (credit_score : Q) (f : Factors) : Factors :=
  if credit_score >=? 800 then limit_mul 1.3 (rate_sub 0.5 f)
  else if credit_score >=? 750 then rate_sub 0.25 f
  else if credit_score >=? 700 then rate_add 0.0 f
  else if credit_score >=? 650 then rate_add 0.5 f
  else limit_mul 0.8 (rate_add 1.0 f).

Definition loan_history_factor (loan_history_score : string) (f : Factors)
  : Factors :=
  if String.eqb loan_history_score "excellent"
  then fee_mul 0.7 (rate_sub 0.3 f)
  else if String.eqb loan_history_score "good" then rate_sub 0.1 f
  else if String.eqb loan_history_score "poor" then rate_add 0.5 f
  else f.

(** Income and employment factors. *)

Definition income_factor (monthly_income : Q) (f : Factors) : Factors :=
  if monthly_income >=? 100000 then limit_mul 1.4 (rate_sub 0.2 f)
  else if monthly_income >=? 75000 then limit_mul 1.2 (rate_sub 0.1 f)
  else if monthly_income <? 30000 then limit_mul 0.9 (rate_add 0.3 f)
  else f.

Definition employment_factor (employment_type : string) (f : Factors)
  : Factors :=
  if String.eqb employment_type "government" then rate_sub 0.4 f
  else if String.eqb employment_type "mnc" then rate_sub 0.2 f
  else if String.eqb employment_type "self_employed" then rate_add 0.3 f
  else if String.eqb employment_type "business_owner" then rate_add 0.2 f
  else f.

Definition job_stability_factor (job_stability_years : Q) (f : Factors)
  : Factors :=
  if job_stability_years >=? 3 then rate_sub 0.1 f
  else if job_stability_years <? 1 then rate_add 0.2 f
  else f.

(** Loan amount and tenure factors. *)

Definition loan_amount_factor (base_loan_amount : Q) (f : Factors) : Factors :=
  if base_loan_amount >=? 2000000 then rate_sub 0.25 f
  else if base_loan_amount >=? 1000000 then rate_sub 0.15 f
  else if base_loan_amount <? 200000 then rate_add 0.2 f
  else f.

Definition tenure_factor (base_tenure : Z) (f : Factors) : Factors :=
  if (base_tenure <=? 12)%Z then rate_sub 0.1 f
  else if (base_tenure >=? 60)%Z then rate_add 0.2 f
  else f.

(** Market and seasonal factors. *)

Definition festive_factor (is_festive_season : bool) (f : Factors) : Factors :=
  if is_festive_season then fee_mul 0.9 (rate_sub 0.15 f) else f.

Definition existing_loans_factor (has_existing_loans : bool) (f : Factors)
  : Factors :=
  if negb has_existing_loans then rate_sub 0.1 f else f.

(** The scoring pass: the twelve factor groups in source order, each
    reading its key of the profile with the default of the source.  Its
    [rate_adjustment] is the exact sum of the selected table entries;
    [Binary64.rate_adjustment] is the running sum the interpreter holds. *)
Definition pricing_factors (customer_data : CustomerData)
    (base_loan_amount : Q) (base_tenure : Z) : Factors :=
  let f := initial_factors in
  let f := account_age_factor (get (account_age_years customer_data) 0) f in
  let f := salary_account_factor (get (is_salary_account customer_data) false) f in
  let f := balance_factor (get (avg_monthly_balance customer_data) 0) f in
  let f := credit_score_factor (get (credit_score customer_data) 750) f in
  let f := loan_history_factor (get (loan_history_score customer_data) "good"%string) f in
  let f := income_factor (get (monthly_income customer_data) 0) f in
  let f := employment_factor (get (employment_type customer_data) "salaried"%string) f in
  let f := job_stability_factor (get (job_stability_years customer_data) 2) f in
  let f := loan_amount_factor base_loan_amount f in
  let f := tenure_factor base_tenure f in
  let f := festive_factor (get (is_festive_season customer_data) false) f in
  existing_loans_factor (get (has_existing_loans customer_data) false) f.

(** The entries appended to [explanation_factors]. *)
Inductive ExplanationFactor : Type :=
| ExcellentBankingRelationship
| StrongCreditProfile
| SalaryAccountHolder
| HighIncomeBracket
| RiskFactorsConsidered.

(** The lines appended under "Special Benefits Available". *)
Inductive SpecialBenefit : Type :=
| ProcessingFeeDiscount (discount_percent : Q)
| HigherLoanEligibility (increase_percent : Q)
| PriorityProcessing
| FestiveSeasonDiscount.

(** [if c: xs.append(x)]. *)
Definition append_if {A : Type} (c : bool) (x : A) (xs : list A) : list A :=
  if c then xs ++ [x] else xs.

(** The values interpolated in the "PERSONALIZED PRICING ANALYSIS" text. *)
Record PricingResult : Type := {
  final_interest_rate : Q;
  base_interest_rate : Q;
  final_emi : Q;
  final_processing_fee : Q;
  max_eligible_amount : Q;
  factors : Factors;
  explanation_factors : list ExplanationFactor;
  monthly_difference : Q;
  total_difference : Q;
  base_tenure : Z;
  special_benefits : list SpecialBenefit
}.

Definition missing_essential_data : string :=
  "Unable to calculate dynamic pricing. Missing essential customer data.".

Definition unable_pricing : string :=
  "Unable to calculate personalized pricing at the moment. Please try again or contact our loan specialist.".

(** [loan_amount if loan_amount > 0 else customer_data.get('loan_offer', 0)]
    and the same for the tenure. *)
Definition resolve_loan_amount (customer_data : CustomerData) (loan_amount : Q)
  : Q :=
  if loan_amount >? 0 then loan_amount else get (loan_offer customer_data) 0.

Definition resolve_tenure (customer_data : CustomerData) (requested_tenure : Z)
  : Z :=
  if (requested_tenure >? 0)%Z then requested_tenure
  else get (tenure customer_data) 12%Z.

Definition calculate_dynamic_pricing (customer_data : CustomerData)
    (loan_amount : Q) (requested_tenure : Z) : ToolOutput PricingResult :=
  try_except
    (let base_loan_amount := resolve_loan_amount customer_data loan_amount in
     let base_tenure := resolve_tenure customer_data requested_tenure in
     let base_interest_rate := get (interest_rate customer_data) 12.0 in
     if negb (Py.truthy base_loan_amount) || negb (Py.truthy base_interest_rate)
     then ret (Message missing_essential_data)
     else
       let f := pricing_factors customer_data base_loan_amount base_tenure in
       let credit_score := get (credit_score customer_data) 750 in
       let is_salary_account := get (is_salary_account customer_data) false in
       let monthly_income := get (monthly_income customer_data) 0 in
       let is_festive_season := get (is_festive_season customer_data) false in
       let final_interest_rate :=
         Py.max 8.0 (Py.min 18.0 (base_interest_rate + rate_adjustment f)) in
       let max_eligible_amount := base_loan_amount * max_loan_multiplier f in
       let base_processing_fee :=
         get (processing_fee customer_data) (base_loan_amount * 0.02) in
       let final_processing_fee :=
         base_processing_fee * processing_fee_multiplier f in
       let monthly_rate := (final_interest_rate / 100) / 12 in
       final_emi <- emi_formula base_loan_amount monthly_rate base_tenure ;;
       let base_monthly_rate := (base_interest_rate / 100) / 12 in
       base_emi <- emi_formula base_loan_amount base_monthly_rate base_tenure ;;
       let monthly_difference := final_emi - base_emi in
       let total_difference := monthly_difference * inject_Z base_tenure in
       let explanation_factors :=
         append_if (rate_adjustment f >? 0.1) RiskFactorsConsidered
           (append_if (monthly_income >=? 75000) HighIncomeBracket
              (append_if is_salary_account SalaryAccountHolder
                 (append_if (credit_score >=? 750) StrongCreditProfile
                    (append_if (rate_adjustment f <? - 0.1)
                       ExcellentBankingRelationship [])))) in
       let special_benefits :=
         append_if is_festive_season FestiveSeasonDiscount
           (append_if is_salary_account PriorityProcessing
              (append_if (max_loan_multiplier f >? 1.0)
                 (HigherLoanEligibility ((max_loan_multiplier f - 1) * 100))
                 (append_if (processing_fee_multiplier f <? 1.0)
                    (ProcessingFeeDiscount
                       ((1 - processing_fee_multiplier f) * 100))
                    []))) in
       ret (Text {| final_interest_rate := final_interest_rate;
                    base_interest_rate := base_interest_rate;
                    final_emi := final_emi;
                    final_processing_fee := final_processing_fee;
                    max_eligible_amount := max_eligible_amount;
                    factors := f;
                    explanation_factors := explanation_factors;
                    monthly_difference := monthly_difference;
                    total_difference := total_difference;
                    base_tenure := base_tenure;
                    special_benefits := special_benefits |}))
    unable_pricing.

(** ** Request and profile updates *)

(** The same dictionary with the key [is_salary_account] set, and with the
    keys [loan_offer] and [tenure] set. *)
Definition with_is_salary_account (customer_data : CustomerData) (flag : bool)
  : CustomerData :=
  {| loan_offer := loan_offer customer_data;
     interest_rate := interest_rate customer_data;
     tenure := tenure customer_data;
     processing_fee := processing_fee customer_data;
     account_age_years := account_age_years customer_data;
     is_salary_account := Some flag;
     avg_monthly_balance := avg_monthly_balance customer_data;
     credit_score := credit_score customer_data;
     loan_history_score := loan_history_score customer_data;
     monthly_income := monthly_income customer_data;
     employment_type := employment_type customer_data;
     job_stability_years := job_stability_years customer_data;
     is_festive_season := is_festive_season customer_data;
     has_existing_loans := has_existing_loans customer_data |}.

Definition with_offer (customer_data : CustomerData) (amount : Q) (months : Z)
  : CustomerData :=
  {| loan_offer := Some amount;
     interest_rate := interest_rate customer_data;
     tenure := Some months;
     processing_fee := processing_fee customer_data;
     account_age_years := account_age_years customer_data;
     is_salary_account := is_salary_account customer_data;
     avg_monthly_balance := avg_monthly_balance customer_data;
     credit_score := credit_score customer_data;
     loan_history_score := loan_history_score customer_data;
     monthly_income := monthly_income customer_data;
     employment_type := employment_type customer_data;
     job_stability_years := job_stability_years customer_data;
     is_festive_season := is_festive_season customer_data;
     has_existing_loans := has_existing_loans customer_data |}.

(** ** get_rate_improvement_suggestions *)

(** Each action appends its lines to [suggestions] in one go; an action is
    kept as one entry, so the list is empty exactly when no line was
    appended. *)
Inductive Suggestion : Type :=
| ImproveCreditScore (target_score potential_reduction : Q)
| ConvertToSalaryAccount
| MaintainHigherBalance
| ConsiderHigherLoanAmount
| OptForShorterTenure (tenure : Z).

(** The three texts of the tool, with the values they interpolate. *)
Inductive ImprovementText : Type :=
| AlreadyBestRates (current_rate : Q)
| ImprovementRoadmap (current_rate new_rate potential_savings
                      monthly_savings : Q) (tenure : Z) (total_savings : Q)
                     (suggestions : list Suggestion)
| ImprovementSuggestions (suggestions : list Suggestion).

Definition unable_suggestions : string :=
  "Unable to generate rate improvement suggestions at the moment.".

(** [not suggestions]. *)
Definition is_empty {A : Type} (xs : list A) : bool :=
  match xs with
  | [] => true
  | _ :: _ => false
  end.

Definition get_rate_improvement_suggestions (customer_data : CustomerData)
  : ToolOutput ImprovementText :=
  try_except
    (let current_rate := get (interest_rate customer_data) 12.0 in
     let suggestions := [] in
     let potential_savings := 0 in
     let credit_score := get (credit_score customer_data) 750 in
     let '(suggestions, potential_savings) :=
       if credit_score <? 800 then
         let target_score := Py.min 850 (credit_score + 50) in
         let potential_reduction :=
           if target_score >=? 800 then 0.5 else 0.25 in
         (suggestions ++ [ImproveCreditScore target_score potential_reduction],
          potential_savings + potential_reduction)
       else (suggestions, potential_savings) in
     let is_salary_account := get (is_salary_account customer_data) false in
     let '(suggestions, potential_savings) :=
       if negb is_salary_account then
         (suggestions ++ [ConvertToSalaryAccount], potential_savings + 0.3)
       else (suggestions, potential_savings) in
     let avg_balance := get (avg_monthly_balance customer_data) 0 in
     let '(suggestions, potential_savings) :=
       if avg_balance <? 50000 then
         (suggestions ++ [MaintainHigherBalance], potential_savings + 0.2)
       else (suggestions, potential_savings) in
     let loan_amount := get (loan_offer customer_data) 0 in
     let suggestions :=
       append_if (loan_amount <? 1000000) ConsiderHigherLoanAmount suggestions in
     let tenure := get (tenure customer_data) 12%Z in
     let suggestions :=
       append_if (tenure >? 36)%Z (OptForShorterTenure tenure) suggestions in
     if is_empty suggestions then ret (Text (AlreadyBestRates current_rate))
     else if potential_savings >? 0 then
       let new_rate := Py.max 8.0 (current_rate - potential_savings) in
       let monthly_rate_current := (current_rate / 100) / 12 in
       let monthly_rate_new := (new_rate / 100) / 12 in
       current_emi <- emi_formula loan_amount monthly_rate_current tenure ;;
       new_emi <- emi_formula loan_amount monthly_rate_new tenure ;;
       let monthly_savings := current_emi - new_emi in
       let total_savings := monthly_savings * inject_Z tenure in
       ret (Text (ImprovementRoadmap current_rate new_rate potential_savings
                    monthly_savings tenure total_savings suggestions))
     else ret (Text (ImprovementSuggestions suggestions)))
    unable_suggestions.

(** The actions listed in a text. *)
Definition suggestions_of (text : ImprovementText) : list Suggestion :=
  match text with
  | AlreadyBestRates _ => []
  | ImprovementRoadmap _ _ _ _ _ _ suggestions => suggestions
  | ImprovementSuggestions suggestions => suggestions
  end.

(** ** format_currency and format_percentage

    [f"₹{amount:,.2f}"] and [f"{value:.1f}%"] of [src/util/utils.py] on a
    number: the magnitude rounded to the nearest hundredth (tenth), ties to
    even, in decimal digits, the currency with thousands separators.  A
    string is the sequence of its UTF-8 bytes.  The branches for [None] and
    NaN, which return the zero strings, have no counterpart on numbers. *)

(** Rounding to the nearest integer, ties to even: the rounding of
    [f"{x:.2f}"] once the magnitude of [x] is scaled to hundredths. *)
Definition round_half_even (x : Q) : Z :=
  let low := Qfloor x in
  let twice := 2 * (x - inject_Z low) in
  if twice <? 1 then low
  else if twice >? 1 then (low + 1)%Z
  else if Z.even low then low else (low + 1)%Z.

(** Decimal digits of a natural number, "0" for zero. *)
Definition digits (n : N) : string := NilZero.string_of_uint (N.to_uint n).

(** The [,] option: a comma before every group of three digits, counted
    from the right.  [group_thousands_rev] reads the digits last first. *)
Fixpoint group_thousands_rev (rev_digits : list ascii) (run : nat)
  : list ascii :=
  match rev_digits with
  | [] => []
  | c :: rest =>
      if Nat.eqb run 3 then ","%char :: c :: group_thousands_rev rest 1
      else c :: group_thousands_rev rest (S run)
  end.

Definition group_thousands (s : string) : string :=
  string_of_list_ascii
    (rev (group_thousands_rev (rev (list_ascii_of_string s)) 0)).

(** Two digits, with a leading zero below ten. *)
Definition two_digits (n : N) : string :=
  if (n <? 10)%N then ("0" ++ digits n)%string else digits n.

Definition sign_of (x : Q) : string := if x <? 0 then "-"%string else ""%string.

Definition format_currency (amount : Q) : string :=
  let cents := Z.to_N (round_half_even (Qabs amount * 100)) in
  ("₹" ++ sign_of amount ++ group_thousands (digits (cents / 100)) ++ "."
   ++ two_digits (cents mod 100))%string.

Definition format_percentage (value : Q) : string :=
  let tenths := Z.to_N (round_half_even (Qabs value * 10)) in
  (sign_of value ++ digits (tenths / 10) ++ "." ++ digits (tenths mod 10)
   ++ "%")%string.

(** *** Reading a formatted number back *)

Fixpoint strip_prefix (prefix s : string) : option string :=
  match prefix with
  | EmptyString => Some s
  | String c prefix' =>
      match s with
      | String d s' => if Ascii.eqb c d then strip_prefix prefix' s' else None
      | EmptyString => None
      end
  end.

(** A leading minus sign, if any. *)
Definition split_sign (s : string) : bool * string :=
  match s with
  | String c rest => if Ascii.eqb c "-" then (true, rest) else (false, s)
  | EmptyString => (false, s)
  end.

Definition is_comma (c : ascii) : bool := Ascii.eqb c ",".

Definition read_digits (cs : list ascii) : option N :=
  option_map N.of_uint (NilZero.uint_of_string (string_of_list_ascii cs)).

(** The sign and the number of hundredths shown by a currency string. *)
Definition read_currency (s : string) : option (bool * N) :=
  match strip_prefix "₹" s with
  | None => None
  | Some body =>
      let (negative, magnitude) := split_sign body in
      match rev (list_ascii_of_string magnitude) with
      | f2 :: f1 :: dot :: units_rev =>
          if Ascii.eqb dot "." then
            match read_digits (filter (fun c => negb (is_comma c))
                                 (rev units_rev)),
                  read_digits [f1; f2] with
            | Some units, Some hundredths =>
                Some (negative, (units * 100 + hundredths)%N)
            | _, _ => None
            end
          else None
      | _ => None
      end
  end.

(** The sign and the number of tenths shown by a percentage string. *)
Definition read_percentage (s : string) : option (bool * N) :=
  let (negative, magnitude) := split_sign s in
  match rev (list_ascii_of_string magnitude) with
  | percent :: t :: dot :: units_rev =>
      if Ascii.eqb percent "%" && Ascii.eqb dot "." then
        match read_digits (rev units_rev), read_digits [t] with
        | Some units, Some tenths => Some (negative, (units * 10 + tenths)%N)
        | _, _ => None
        end
      else None
  | _ => None
  end.

(** The characters of a rendered number are decimal digits. *)
Definition is_digit (c : ascii) : bool :=
  (48 <=? nat_of_ascii c)%nat && (nat_of_ascii c <=? 57)%nat.

(** ** Binary64 evaluation

    The running sum [rate_adjustment] and the EMI expression as the
    interpreter evaluates them: on IEEE 754 binary64 numbers, each
    operation rounded to nearest, ties to even.  A decimal literal of the
    source stands for the binary64 number nearest to it.  The numbers of the
    profile are compared with integer literals only, which Python does
    exactly, so they stay rationals. *)

Module Binary64.

(** The rational a finite binary64 number is. *)
Definition value (x : float) : Q :=
  match FloatOps.Prim2SF x with
  | SpecFloat.S754_finite s m e => inject_Z (if s then Zneg m else Zpos m) * 2 ^ e
  | _ => 0
  end.

(** Customer relationship factors. *)

Definition account_age_factor (account_age_years : Q) (rate_adjustment : float)
  : float :=
  if account_age_years >=? 5 then (rate_adjustment - 0.5)%float
  else if account_age_years >=? 2 then (rate_adjustment - 0.25)%float
  else if account_age_years <? 1 then (rate_adjustment + 0.25)%float
  else rate_adjustment.

Definition salary_account_factor (is_salary_account : bool)
    (rate_adjustment : float) : float :=
  if is_salary_account then (rate_adjustment - 0.3)%float else rate_adjustment.

Definition balance_factor (avg_monthly_balance : Q) (rate_adjustment : float)
  : float :=
  if avg_monthly_balance >=? 100000 then (rate_adjustment - 0.4)%float
  else if avg_monthly_balance >=? 50000 then (rate_adjustment - 0.2)%float
  else if avg_monthly_balance <? 10000 then (rate_adjustment + 0.3)%float
  else rate_adjustment.

(** Credit profile factors. *)

Definition credit_score_factor (credit_score : Q) (rate_adjustment : float)
  : float :=
  if credit_score >=? 800 then (rate_adjustment - 0.5)%float
  else if credit_score >=? 750 then (rate_adjustment - 0.25)%float
  else if credit_score >=? 700 then (rate_adjustment + 0.0)%float
  else if credit_score >=? 650 then (rate_adjustment + 0.5)%float
  else (rate_adjustment + 1.0)%float.

Definition loan_history_factor (loan_history_score : string)
    (rate_adjustment : float) : float :=
  if String.eqb loan_history_score "excellent"
  then (rate_adjustment - 0.3)%float
  else if String.eqb loan_history_score "good"
  then (rate_adjustment - 0.1)%float
  else if String.eqb loan_history_score "poor"
  then (rate_adjustment + 0.5)%float
  else rate_adjustment.

(** Income and employment factors. *)

Definition income_factor (monthly_income : Q) (rate_adjustment : float)
  : float :=
  if monthly_income >=? 100000 then (rate_adjustment - 0.2)%float
  else if monthly_income >=? 75000 then (rate_adjustment - 0.1)%float
  else if monthly_income <? 30000 then (rate_adjustment + 0.3)%float
  else rate_adjustment.

Definition employment_factor (employment_type : string)
    (rate_adjustment : float) : float :=
  if String.eqb employment_type "government"
  then (rate_adjustment - 0.4)%float
  else if String.eqb employment_type "mnc"
  then (rate_adjustment - 0.2)%float
  else if String.eqb employment_type "self_employed"
  then (rate_adjustment + 0.3)%float
  else if String.eqb employment_type "business_owner"
  then (rate_adjustment + 0.2)%float
  else rate_adjustment.

Definition job_stability_factor (job_stability_years : Q)
    (rate_adjustment : float) : float :=
  if job_stability_years >=? 3 then (rate_adjustment - 0.1)%float
  else if job_stability_years <? 1 then (rate_adjustment + 0.2)%float
  else rate_adjustment.

(** Loan amount and tenure factors. *)

Definition loan_amount_factor (base_loan_amount : Q) (rate_adjustment : float)
  : float :=
  if base_loan_amount >=? 2000000 then (rate_adjustment - 0.25)%float
  else if base_loan_amount >=? 1000000 then (rate_adjustment - 0.15)%float
  else if base_loan_amount <? 200000 then (rate_adjustment + 0.2)%float
  else rate_adjustment.

Definition tenure_factor (base_tenure : Z) (rate_adjustment : float) : float :=
  if (base_tenure <=? 12)%Z then (rate_adjustment - 0.1)%float
  else if (base_tenure >=? 60)%Z then (rate_adjustment + 0.2)%float
  else rate_adjustment.

(** Market and seasonal factors. *)

Definition festive_factor (is_festive_season : bool) (rate_adjustment : float)
  : float :=
  if is_festive_season then (rate_adjustment - 0.15)%float else rate_adjustment.

Definition existing_loans_factor (has_existing_loans : bool)
    (rate_adjustment : float) : float :=
  if negb has_existing_loans then (rate_adjustment - 0.1)%float
  else rate_adjustment.

(** [rate_adjustment] after the scoring pass: [0.0] and then the twelve
    groups in source order. *)
Definition rate_adjustment (customer_data : CustomerData)
    (base_loan_amount : Q) (base_tenure : Z) : float :=
  let r := 0.0%float in
  let r := account_age_factor (get (account_age_years customer_data) 0) r in
  let r := salary_account_factor (get (is_salary_account customer_data) false) r in
  let r := balance_factor (get (avg_monthly_balance customer_data) 0) r in
  let r := credit_score_factor (get (credit_score customer_data) 750) r in
  let r := loan_history_factor (get (loan_history_score customer_data) "good"%string) r in
  let r := income_factor (get (monthly_income customer_data) 0) r in
  let r := employment_factor (get (employment_type customer_data) "salaried"%string) r in
  let r := job_stability_factor (get (job_stability_years customer_data) 2) r in
  let r := loan_amount_factor base_loan_amount r in
  let r := tenure_factor base_tenure r in
  let r := festive_factor (get (is_festive_season customer_data) false) r in
  existing_loans_factor (get (has_existing_loans customer_data) false) r.

(** [explanation_factors] as lines 452-462 build it from that sum. *)
Definition explanation_factors (customer_data : CustomerData)
    (base_loan_amount : Q) (base_tenure : Z) : list ExplanationFactor :=
  let rate_adjustment :=
    rate_adjustment customer_data base_loan_amount base_tenure in
  let credit_score := get (credit_score customer_data) 750 in
  let is_salary_account := get (is_salary_account customer_data) false in
  let monthly_income := get (monthly_income customer_data) 0 in
  append_if (0.1 <? rate_adjustment)%float RiskFactorsConsidered
    (append_if (monthly_income >=? 75000) HighIncomeBracket
       (append_if is_salary_account SalaryAccountHolder
          (append_if (credit_score >=? 750) StrongCreditProfile
             (append_if (rate_adjustment <? - 0.1)%float
                ExcellentBankingRelationship [])))).

(** *** The EMI expression *)

(** [float(n)] for an int: the nearest binary64 number; OverflowError when
    there is none. *)
Definition of_int (n : Z) : Exc float :=
  let x :=
    FloatOps.SF2Prim
      (SpecFloat.binary_normalize FloatOps.prec FloatOps.emax n 0 false) in
  if is_infinity x then None else Some x.

(** The integer an integral binary64 number is. *)
Definition to_int (x : float) : Z :=
  match FloatOps.Prim2SF x with
  | SpecFloat.S754_finite s m e =>
      SpecFloat.cond_Zopp s
        (if (0 <=? e)%Z then Zpos m * 2 ^ e else Zpos m / 2 ^ (- e))%Z
  | _ => 0%Z
  end.

(** The binary64 number nearest to [(-1)^s * (m * 2^e) ^ k], [k <> 0]. *)
Definition rounded_power (s : bool) (m : positive) (e k : Z) : float :=
  FloatOps.SF2Prim
    (if (0 <? k)%Z
     then SpecFloat.binary_round FloatOps.prec FloatOps.emax s
            (Pos.pow m (Z.to_pos k)) (e * k)
     else SpecFloat.SFdiv FloatOps.prec FloatOps.emax
            (SpecFloat.S754_finite false 1 0)
            (SpecFloat.S754_finite s (Pos.pow m (Z.to_pos (- k))) (e * - k))).

(** [base ** exponent] for a float base and an int exponent (CPython's
    [float_pow]): the exponent is converted to a float; the result is 1.0
    for the exponent 0; a zero base raised to a negative power raises
    ZeroDivisionError; otherwise the result is C's [pow], taken here to
    return the binary64 number nearest to the power, and OverflowError is
    raised when that is infinite. *)
Definition pow (base : float) (exponent : Z) : Exc float :=
  w <- of_int exponent ;;
  let k := to_int w in
  if (k =? 0)%Z then ret 1%float
  else
    match FloatOps.Prim2SF base with
    | SpecFloat.S754_nan => ret nan
    | SpecFloat.S754_infinity s =>
        ret (if (0 <? k)%Z
             then if s && Z.odd k then neg_infinity else infinity
             else if s && Z.odd k then neg_zero else zero)
    | SpecFloat.S754_zero s =>
        if (k <? 0)%Z then None
        else ret (if s && Z.odd k then neg_zero else zero)
    | SpecFloat.S754_finite s m e =>
        let x := rounded_power (s && Z.odd k) m e k in
        if is_infinity x then None else ret x
    end.

(** [n / d] on floats: ZeroDivisionError when [d] is zero. *)
Definition div (n d : float) : Exc float :=
  if (d =? 0)%float then None else Some (n / d)%float.

(** [(p * r * (1 + r) ** n) / ((1 + r) ** n - 1)]. *)
Definition emi_formula (principal monthly_rate : float) (months : Z)
  : Exc float :=
  growth <- pow (1 + monthly_rate) months ;;
  growth' <- pow (1 + monthly_rate) months ;;
  div (principal * monthly_rate * growth) (growth' - 1).

(** The values interpolated in the "EMI Calculation:" text. *)
Record EmiBreakdown : Type := {
  eb_loan_amount : float;
  eb_interest_rate : float;
  eb_tenure_months : Z;
  eb_emi : float;
  eb_total_amount : float;
  eb_total_interest : float
}.

Definition calculate_emi (loan_amount interest_rate : float) (tenure_months : Z)
  : ToolOutput EmiBreakdown :=
  try_except
    (let monthly_rate := ((interest_rate / 100) / 12)%float in
     emi <- emi_formula loan_amount monthly_rate tenure_months ;;
     months <- of_int tenure_months ;;
     let total_amount := (emi * months)%float in
     let total_interest := (total_amount - loan_amount)%float in
     ret (Text {| eb_loan_amount := loan_amount;
                  eb_interest_rate := interest_rate;
                  eb_tenure_months := tenure_months;
                  eb_emi := emi;
                  eb_total_amount := total_amount;
                  eb_total_interest := total_interest |}))
    unable_emi.

(** *** The running sums that can occur

    A branch of a factor group is a move: the hundredths of a point its
    literal stands for, and what it does to the running sum.  A state pairs
    the sum of the hundredths so far with the running sum. *)

Definition Move : Type := Z * (float -> float).
Definition State : Type := Z * float.

Definition same_state (x y : State) : bool :=
  (fst x =? fst y)%Z && PrimFloat.Leibniz.eqb (snd x) (snd y).

Fixpoint insert (x : State) (states : list State) : list State :=
  match states with
  | [] => [x]
  | y :: rest => if same_state x y then states else y :: insert x rest
  end.

Definition apply_move (s : State) (mv : Move) : State :=
  ((fst s + fst mv)%Z, snd mv (snd s)).

(** The states after a group, from the states before it. *)
Definition after_group (moves : list Move) (states : list State) : list State :=
  fold_right insert []
    (flat_map (fun s => map (apply_move s) moves) states).

Definition keep : Move := (0%Z, fun r => r).

Definition account_age_moves : list Move :=
  [((-50)%Z, fun r => (r - 0.5)%float); ((-25)%Z, fun r => (r - 0.25)%float);
   (25%Z, fun r => (r + 0.25)%float); keep].
Definition salary_account_moves : list Move :=
  [((-30)%Z, fun r => (r - 0.3)%float); keep].
Definition balance_moves : list Move :=
  [((-40)%Z, fun r => (r - 0.4)%float); ((-20)%Z, fun r => (r - 0.2)%float);
   (30%Z, fun r => (r + 0.3)%float); keep].
Definition credit_score_moves : list Move :=
  [((-50)%Z, fun r => (r - 0.5)%float); ((-25)%Z, fun r => (r - 0.25)%float);
   (0%Z, fun r => (r + 0.0)%float); (50%Z, fun r => (r + 0.5)%float);
   (100%Z, fun r => (r + 1.0)%float)].
Definition loan_history_moves : list Move :=
  [((-30)%Z, fun r => (r - 0.3)%float); ((-10)%Z, fun r => (r - 0.1)%float);
   (50%Z, fun r => (r + 0.5)%float); keep].
Definition income_moves : list Move :=
  [((-20)%Z, fun r => (r - 0.2)%float); ((-10)%Z, fun r => (r - 0.1)%float);
   (30%Z, fun r => (r + 0.3)%float); keep].
Definition employment_moves : list Move :=
  [((-40)%Z, fun r => (r - 0.4)%float); ((-20)%Z, fun r => (r - 0.2)%float);
   (30%Z, fun r => (r + 0.3)%float); (20%Z, fun r => (r + 0.2)%float); keep].
Definition job_stability_moves : list Move :=
  [((-10)%Z, fun r => (r - 0.1)%float); (20%Z, fun r => (r + 0.2)%float); keep].
Definition loan_amount_moves : list Move :=
  [((-25)%Z, fun r => (r - 0.25)%float); ((-15)%Z, fun r => (r - 0.15)%float);
   (20%Z, fun r => (r + 0.2)%float); keep].
Definition tenure_moves : list Move :=
  [((-10)%Z, fun r => (r - 0.1)%float); (20%Z, fun r => (r + 0.2)%float); keep].
Definition festive_moves : list Move :=
  [((-15)%Z, fun r => (r - 0.15)%float); keep].
Definition existing_loans_moves : list Move :=
  [((-10)%Z, fun r => (r - 0.1)%float); keep].

(** The states that the scoring pass can end in. *)
Definition reachable : list State :=
  after_group existing_loans_moves
    (after_group festive_moves
       (after_group tenure_moves
          (after_group loan_amount_moves
             (after_group job_stability_moves
                (after_group employment_moves
                   (after_group income_moves
                      (after_group loan_history_moves
                         (after_group credit_score_moves
                            (after_group balance_moves
                               (after_group salary_account_moves
                                  (after_group account_age_moves
                                     [(0%Z, 0.0%float)]))))))))))).

(** What holds of every such state: the running sum lies between
    -3.3000000000000003 and 3.25, both as the interpreter compares and as
    rationals, within 1e-15 of the sum of the hundredths, and on the side of -0.1 and of 0.1 that this sum is on
    whenever the sum is not -0.1 or 0.1 itself. *)
Definition state_ok (s : State) : bool :=
  let hundredths := fst s in
  let running := snd s in
  (-3.3000000000000003 <=? running)%float && (running <=? 3.25)%float
  && Qle_bool (value (-3.3000000000000003)%float) (value running)
  && Qle_bool (value running) 3.25
  && Qle_bool (Qabs (value running - (hundredths # 100))) (1 # 1000000000000000)
  && (if (hundredths <? -10)%Z then (running <? -0.1)%float else true)
  && (if (-10 <? hundredths)%Z then negb (running <? -0.1)%float else true)
  && (if (10 <? hundredths)%Z then (0.1 <? running)%float else true)
  && (if (hundredths <? 10)%Z then negb (0.1 <? running)%float else true).

End Binary64.

(** ** Sample profiles *)

(** The profile of the worked example: every key not listed is absent. *)
Definition example_profile : CustomerData :=
  {| loan_offer := Some 500000; interest_rate := Some 10.5;
     tenure := Some 24%Z; processing_fee := None;
     account_age_years := Some 6; is_salary_account := Some true;
     avg_monthly_balance := Some 120000; credit_score := Some 820;
     loan_history_score := None; monthly_income := Some 90000;
     employment_type := Some "salaried"%string; job_stability_years := None;
     is_festive_season := None; has_existing_loans := None |}.

(** A profile that only carries a loan offer. *)
Definition offer_only_profile : CustomerData :=
  {| loan_offer := Some 500000; interest_rate := None; tenure := None;
     processing_fee := None; account_age_years := None;
     is_salary_account := None; avg_monthly_balance := None;
     credit_score := None; loan_history_score := None;
     monthly_income := None; employment_type := None;
     job_stability_years := None; is_festive_season := None;
     has_existing_loans := None |}.

(** A complete offer whose tenure is zero months. *)
Definition zero_tenure_profile : CustomerData :=
  {| loan_offer := Some 500000; interest_rate := Some 10.5;
     tenure := Some 0%Z; processing_fee := None; account_age_years := None;
     is_salary_account := None; avg_monthly_balance := None;
     credit_score := None; loan_history_score := None;
     monthly_income := None; employment_type := None;
     job_stability_years := None; is_festive_season := None;
     has_existing_loans := None |}.


(** The profile that takes the dearest branch of every factor group, on a
    loan of 150000 over 60 months at a base rate of 15.0. *)
Definition worst_case_profile : CustomerData :=
  {| loan_offer := Some 150000; interest_rate := Some 15.0;
     tenure := Some 60%Z; processing_fee := None;
     account_age_years := Some 0; is_salary_account := Some false;
     avg_monthly_balance := Some 0; credit_score := Some 300;
     loan_history_score := Some "poor"%string; monthly_income := Some 0;
     employment_type := Some "self_employed"%string;
     job_stability_years := Some 0; is_festive_season := Some false;
     has_existing_loans := Some true |}.

(** The profile that takes the cheapest branch of every factor group, on a
    loan of 2500000 over 12 months at a base rate of 10.5. *)
Definition best_case_profile : CustomerData :=
  {| loan_offer := Some 2500000; interest_rate := Some 10.5;
     tenure := Some 12%Z; processing_fee := None;
     account_age_years := Some 10; is_salary_account := Some true;
     avg_monthly_balance := Some 500000; credit_score := Some 850;
     loan_history_score := Some "excellent"%string;
     monthly_income := Some 150000;
     employment_type := Some "government"%string;
     job_stability_years := Some 5; is_festive_season := Some true;
     has_existing_loans := Some false |}.

(** A profile with nothing left to improve. *)
Definition full_profile : CustomerData :=
  {| loan_offer := Some 1500000; interest_rate := Some 9.0;
     tenure := Some 24%Z; processing_fee := None;
     account_age_years := Some 6; is_salary_account := Some true;
     avg_monthly_balance := Some 120000; credit_score := Some 820;
     loan_history_score := None; monthly_income := Some 90000;
     employment_type := Some "salaried"%string; job_stability_years := None;
     is_festive_season := None; has_existing_loans := None |}.

(** ** Specification predicates *)

(** A factor group shifts the rate adjustment by an amount that depends on
    its input alone and lies between [lo] and [hi]. *)
Definition shifts_rate (lo hi : Q) (group : Factors -> Factors) : Prop :=
  exists d, (lo <= d /\ d <= hi)
    /\ forall f, rate_adjustment (group f) == rate_adjustment f + d.

(** A factor group multiplies the fee multiplier, or the limit multiplier,
    by one of the listed constants, whatever the accumulators hold. *)
Definition scales_fee (choices : list Q) (group : Factors -> Factors) : Prop :=
  exists k, In k choices
    /\ forall f, processing_fee_multiplier (group f)
                 == processing_fee_multiplier f * k.

Definition scales_limit (choices : list Q) (group : Factors -> Factors) : Prop :=
  exists k, In k choices
    /\ forall f, max_loan_multiplier (group f) == max_loan_multiplier f * k.


(** The exact and the binary64 version of a factor group take the same
    branch: one of the listed moves gives the hundredths added to the table
    sum and the update of the running sum. *)
Definition tracks (moves : list Binary64.Move) (exact : Factors -> Factors)
    (running : float -> float) : Prop :=
  exists mv, In mv moves
    /\ (forall f, rate_adjustment (exact f)
                  == rate_adjustment f + (fst mv # 100))
    /\ (forall r, running r = snd mv r).

(** A pair of sums that one of the listed states stands for. *)
Definition stands_for (states : list Binary64.State) (table_sum : Q)
    (running : float) : Prop :=
  exists hundredths, table_sum == hundredths # 100
    /\ In (hundredths, running) states.

(** * Properties *)

(** ** Comparisons and truth values *)

Lemma ge_spec (x y : Q) : reflect (y <= x) (x >=? y).
Proof.
  unfold Py.ge. destruct (Qle_bool y x) eqn:E; constructor.
  - now apply Qle_bool_iff.
  - intro H. apply Qle_bool_iff in H. congruence.
Qed.

Lemma gt_spec (x y : Q) : reflect (y < x) (x >? y).
Proof.
  unfold Py.gt. destruct (Qle_bool x y) eqn:E; constructor.
  - apply Qle_bool_iff in E. now apply Qle_not_lt.
  - apply Qnot_le_lt. intro H. apply Qle_bool_iff in H. congruence.
Qed.

Lemma lt_spec (x y : Q) : reflect (x < y) (x <? y).
Proof. unfold Py.lt. exact (gt_spec y x). Qed.

Lemma truthy_spec (x : Q) : reflect (~ x == 0) (Py.truthy x).
Proof.
  unfold Py.truthy. destruct (Qeq_bool x 0) eqn:E; constructor.
  - apply Qeq_bool_iff in E. tauto.
  - now apply Qeq_bool_neq.
Qed.

Lemma truthyZ_spec (n : Z) : reflect (n <> 0%Z) (Py.truthyZ n).
Proof.
  unfold Py.truthyZ. destruct (Z.eqb_spec n 0); constructor; tauto.
Qed.

(** Case analysis on every Python comparison in the goal. *)
Ltac py_cases :=
  repeat match goal with
  | |- context [Py.ge ?x ?y] => destruct (ge_spec x y)
  | |- context [Py.gt ?x ?y] => destruct (gt_spec x y)
  | |- context [Py.lt ?x ?y] => destruct (lt_spec x y)
  end.

Lemma max_spec (a b : Q) : a <= Py.max a b /\ b <= Py.max a b
  /\ (Py.max a b = a \/ Py.max a b = b).
Proof. unfold Py.max. py_cases; repeat split; auto; lra. Qed.

Lemma min_spec (a b : Q) : Py.min a b <= a /\ Py.min a b <= b
  /\ (Py.min a b = a \/ Py.min a b = b).
Proof. unfold Py.min. py_cases; repeat split; auto; lra. Qed.

(** ** Powers of the growth factor *)

Lemma Qpower_gt_1 (a : Q) (n : Z) : 1 < a -> (n <> 0)%Z -> ~ a ^ n == 1.
Proof.
  intros Ha Hn E.
  destruct (Z.lt_trichotomy n 0) as [Hneg | [H0 | Hpos]]; [| tauto |].
  - assert (H1 : 1 < a ^ (- n)) by (apply Qpower_1_lt; [exact Ha | lia]).
    rewrite Qpower_opp, E in H1. revert H1. compute. discriminate.
  - assert (H1 : 1 < a ^ n) by (apply Qpower_1_lt; [exact Ha | lia]).
    rewrite E in H1. revert H1. compute. discriminate.
Qed.

Lemma Qpower_pos_neq_1 (a : Q) (n : Z) :
  0 < a -> ~ a == 1 -> (n <> 0)%Z -> ~ a ^ n == 1.
Proof.
  intros Ha Ha1 Hn E.
  destruct (Qlt_le_dec 1 a) as [Hgt | Hle].
  - exact (Qpower_gt_1 a n Hgt Hn E).
  - assert (Hlt : a < 1) by (apply Qle_lt_or_eq in Hle; tauto).
    assert (Hinv : 1 < / a).
    { apply Qlt_shift_inv_l; [exact Ha | lra]. }
    apply (Qpower_gt_1 (/ a) n Hinv Hn).
    rewrite Qinv_power, E. reflexivity.
Qed.




(** ** The amortization formula *)

Lemma pow_raises (b : Q) (e : Z) : pow b e = None <-> (b == 0 /\ (e < 0)%Z).
Proof.
  unfold pow. destruct (Qeq_bool b 0) eqn:Eb; destruct (Z.ltb_spec e 0); simpl.
  - apply Qeq_bool_iff in Eb. tauto.
  - split; [discriminate | intros [_ H']; lia].
  - apply Qeq_bool_neq in Eb. split; [discriminate | tauto].
  - split; [discriminate | intros [_ H']; lia].
Qed.

Lemma pow_value (b : Q) (e : Z) :
  ~ (b == 0 /\ (e < 0)%Z) -> pow b e = Some (b ^ e).
Proof.
  intro H. destruct (pow b e) eqn:E.
  - unfold pow in E. destruct (Qeq_bool b 0 && (e <? 0)%Z); congruence.
  - apply pow_raises in E. tauto.
Qed.

(** The formula raises exactly when the power raises or the denominator
    is zero. *)
Lemma emi_formula_raises (p m : Q) (n : Z) :
  emi_formula p m n = None <->
  ((1 + m == 0 /\ (n < 0)%Z) \/ (1 + m) ^ n == 1).
Proof.
  unfold emi_formula.
  destruct (pow (1 + m) n) eqn:E.
  - assert (Hdef : ~ (1 + m == 0 /\ (n < 0)%Z)).
    { intro H. apply pow_raises in H. congruence. }
    rewrite (pow_value _ _ Hdef) in E. injection E as <-.
    simpl. unfold div.
    destruct (Qeq_bool ((1 + m) ^ n - 1) 0) eqn:Ed.
    + apply Qeq_bool_iff in Ed. split; [intros _; right; lra | reflexivity].
    + apply Qeq_bool_neq in Ed. split; [discriminate |].
      intros [H | H]; [tauto | exfalso; apply Ed; lra].
  - simpl. apply pow_raises in E. tauto.
Qed.

(** When it does not raise, the formula returns the quotient as written. *)
Lemma emi_formula_value (p m : Q) (n : Z) (e : Q) :
  emi_formula p m n = Some e ->
  e = p * m * (1 + m) ^ n / ((1 + m) ^ n - 1) /\ ~ (1 + m) ^ n - 1 == 0.
Proof.
  unfold emi_formula. intro H.
  destruct (pow (1 + m) n) eqn:E; [| discriminate].
  assert (Hdef : ~ (1 + m == 0 /\ (n < 0)%Z)).
  { intro H'. apply pow_raises in H'. congruence. }
  rewrite (pow_value _ _ Hdef) in E. injection E as <-.
  simpl in H. unfold div in H.
  destruct (Qeq_bool ((1 + m) ^ n - 1) 0) eqn:Ed; [discriminate |].
  apply Qeq_bool_neq in Ed. injection H as <-. split; [reflexivity | exact Ed].
Qed.

(** A positive growth factor other than one and a non-zero number of months:
    the formula is defined. *)
Lemma emi_formula_defined (p m : Q) (n : Z) :
  0 < 1 + m -> ~ m == 0 -> (n <> 0)%Z ->
  emi_formula p m n = Some (reducing_balance_emi p m n).
Proof.
  intros Hpos Hm Hn. unfold reducing_balance_emi.
  destruct (emi_formula p m n) eqn:E.
  - apply emi_formula_value in E. destruct E as [-> _]. reflexivity.
  - apply emi_formula_raises in E. exfalso. destruct E as [[H _] | H]; [lra |].
    apply (Qpower_pos_neq_1 (1 + m) n); auto. lra.
Qed.

(** The monthly rate of an annual percentage. *)
Lemma monthly_rate_eq (r : Q) : (r / 100) / 12 == r * (1 # 1200).
Proof. field. Qed.


(** ** calculate_emi *)

Lemma calculate_emi_unfold (p r : Q) (t : Z) :
  calculate_emi p r t =
  match emi_formula p ((r / 100) / 12) t with
  | Some emi =>
      Text {| eb_loan_amount := p; eb_interest_rate := r;
              eb_tenure_months := t; eb_emi := emi;
              eb_total_amount := emi * inject_Z t;
              eb_total_interest := emi * inject_Z t - p |}
  | None => Message unable_emi
  end.
Proof.
  unfold calculate_emi. destruct (emi_formula p (r / 100 / 12) t); reflexivity.
Qed.

(** C2 (as stated, refuted at 120000 / 0% / 12 months): the tool does not
    return a breakdown whose EMI is [120000 / 12]; it returns the fixed
    sentence. *)
Lemma zero_rate_emi_not_principal_over_tenure :
  calculate_emi 120000 0 12 = Message unable_emi /\
  ~ (exists b, calculate_emi 120000 0 12 = Text b /\ eb_emi b == 120000 / 12).
Proof.
  assert (E : calculate_emi 120000 0 12 = Message unable_emi) by reflexivity.
  split; [exact E |]. intros [b [H _]]. rewrite E in H. discriminate H.
Qed.

(** C2 (amended): at an annual rate of exactly zero the tool has no special
    case; for every principal and every tenure the denominator of the
    general formula is zero, the division raises, and the tool returns
    "Unable to calculate EMI. Please check the input parameters.". *)
Theorem zero_rate_emi_unable (p r : Q) (t : Z) :
  r == 0 -> calculate_emi p r t = Message unable_emi.
Proof.
  intro Hr. rewrite calculate_emi_unfold.
  assert (E : emi_formula p (r / 100 / 12) t = None).
  { apply emi_formula_raises. right.
    assert (E1 : 1 + r / 100 / 12 == 1) by (rewrite monthly_rate_eq; lra).
    rewrite E1. apply Qpower_1. }
  rewrite E. reflexivity.
Qed.

Lemma zero_rate_emi_unable_witness :
  calculate_emi 120000 0 12 = Message unable_emi.
Proof. apply (zero_rate_emi_unable 120000 0 12). reflexivity. Defined.

(** C5 (as stated, refuted): a negative principal, a negative rate and a
    negative tenure each yield a numeric breakdown, not the fixed sentence. *)
Lemma negative_parameters_not_rejected :
  (exists b, calculate_emi (-100000) 12 12 = Text b /\ eb_emi b < 0) /\
  (exists b, calculate_emi 100000 (-12) 12 = Text b) /\
  (exists b, calculate_emi 100000 12 (-12) = Text b).
Proof.
  split; [| split]; eexists; try split;
    try (vm_compute; reflexivity).
Qed.

(** Whether the formula raises does not depend on the principal. *)
Lemma emi_formula_any_principal (p p' m : Q) (t : Z) :
  emi_formula p m t = None -> emi_formula p' m t = None.
Proof. rewrite !emi_formula_raises. tauto. Qed.

(** C5 (amended): the tool validates nothing.  It returns the fixed "Unable
    to calculate EMI" sentence whenever the tenure is zero or the annual
    rate is zero, where the division of the formula raises; whether it
    fails never depends on the principal; and it returns either a numeric
    breakdown or that sentence, never a failure of another kind. *)
Theorem calculate_emi_validates_nothing (p r : Q) (t : Z) :
  ((t = 0%Z \/ r == 0) -> calculate_emi p r t = Message unable_emi)
  /\ (forall p', calculate_emi p r t = Message unable_emi
                 <-> calculate_emi p' r t = Message unable_emi)
  /\ ((exists b, calculate_emi p r t = Text b)
      \/ calculate_emi p r t = Message unable_emi).
Proof.
  split; [| split].
  - intro H. rewrite calculate_emi_unfold.
    assert (E : emi_formula p (r / 100 / 12) t = None).
    { apply emi_formula_raises. right. destruct H as [-> | Hr].
      - reflexivity.
      - assert (E1 : 1 + r / 100 / 12 == 1) by (rewrite monthly_rate_eq; lra).
        rewrite E1. apply Qpower_1. }
    rewrite E. reflexivity.
  - intro p'. rewrite !calculate_emi_unfold.
    destruct (emi_formula p (r / 100 / 12) t) eqn:E;
      destruct (emi_formula p' (r / 100 / 12) t) eqn:E';
      try (split; [discriminate | discriminate]);
      try (split; reflexivity).
    + apply (emi_formula_any_principal _ p) in E'. congruence.
    + apply (emi_formula_any_principal _ p') in E. congruence.
  - rewrite calculate_emi_unfold.
    destruct (emi_formula p (r / 100 / 12) t);
      [left; eexists | right]; reflexivity.
Qed.

Lemma calculate_emi_validates_nothing_witness :
  calculate_emi 100000 12 0 = Message unable_emi.
Proof.
  apply (proj1 (calculate_emi_validates_nothing 100000 12 0)).
  left. reflexivity.
Defined.

(** *** The EMI expression in binary64 *)

(** An ordinary loan, 100000 at 12 percent over 12 months, as the
    interpreter computes it. *)
Example binary64_instalment :
  exists b, Binary64.calculate_emi 100000 12 12 = Text b
    /\ Binary64.eb_emi b = 8884.8788678341662%float
    /\ Binary64.eb_total_amount b = 106618.54641400999%float
    /\ Binary64.eb_total_interest b = 6618.5464140099939%float.
Proof. eexists. split; [vm_compute; reflexivity |]. repeat split. Qed.

(** At an annual rate of 1e-15 the growth factor [1 + monthly_rate] rounds
    to 1.0, the denominator is zero and the tool returns its failure
    sentence; at 1200 percent over 1024 months the power [2.0 ** 1024]
    overflows, with the same outcome.  The exact formula has a value at
    both. *)
Example binary64_growth_factor_rounds_to_one :
  (1 + (1e-15 / 100) / 12 = 1)%float
  /\ Binary64.calculate_emi 100000 1e-15 12 = Message unable_emi.
Proof. split; vm_compute; reflexivity. Qed.

Example binary64_power_overflows :
  Binary64.pow 2 1024 = None
  /\ Binary64.calculate_emi 100000 1200 1024 = Message unable_emi.
Proof. split; vm_compute; reflexivity. Qed.




(** ** calculate_loan_savings *)

(** One turn of the loop: nothing for the current tenure, else the
    comparison of the candidate. *)
Lemma tenure_option_inv (L m ci : Q) (T n : Z) (result r : list SavingsBlock) :
  tenure_option L m ci T n result = Some r ->
  (n = T /\ r = result)
  \/ (n <> T /\ exists e, emi_formula L m n = Some e
        /\ r = result ++ [TenureOption n e (ci - (e * inject_Z n - L))
                            (ci - (e * inject_Z n - L) >? 0)]).
Proof.
  unfold tenure_option. destruct (Z.eqb_spec n T) as [-> | Hne]; cbn [negb].
  - intro H. injection H as <-. left. split; reflexivity.
  - destruct (emi_formula L m n) as [e |]; cbn [bind]; [| discriminate].
    intro H. injection H as <-. right. split; [exact Hne |].
    exists e. split; reflexivity.
Qed.


Section SavingsOutcome.

Variable customer_data : CustomerData.
Variable prepayment_amount : Q.

(** The three parameters the tool reads from the profile. *)
Let loan_amount : Q := get (loan_offer customer_data) 0.
Let annual_rate : Q := get (interest_rate customer_data) 0.
Let months : Z := get (tenure customer_data) 12%Z.
Let monthly_rate : Q := (annual_rate / 100) / 12.

(** The profile passes the gate [all([loan_amount, interest_rate, tenure])]. *)
Hypothesis loan_nonzero : ~ loan_amount == 0.
Hypothesis rate_nonzero : ~ annual_rate == 0.
Hypothesis tenure_nonzero : months <> 0%Z.




End SavingsOutcome.







(** ** The scoring pass *)

(** Solves [shifts_rate lo hi group] once the branch of the group is known:
    the shift is zero, or the constant the branch adds or subtracts. *)
Ltac shift_done :=
  unfold shifts_rate;
  first
    [ exists 0; split; [split; lra | intro; cbn; lra]
    | eexists; split;
      [| intro; cbn [rate_adjustment rate_add rate_sub fee_mul limit_mul];
         unfold Qminus; reflexivity ];
      split; lra ].

Lemma account_age_shift (a : Q) : shifts_rate (-0.5) 0.25 (account_age_factor a).
Proof. unfold account_age_factor. py_cases; shift_done. Qed.

Lemma salary_account_shift (b : bool) :
  shifts_rate (-0.3) 0 (salary_account_factor b).
Proof. unfold salary_account_factor. destruct b; shift_done. Qed.

Lemma balance_shift (a : Q) : shifts_rate (-0.4) 0.3 (balance_factor a).
Proof. unfold balance_factor. py_cases; shift_done. Qed.

Lemma credit_score_shift (s : Q) : shifts_rate (-0.5) 1.0 (credit_score_factor s).
Proof. unfold credit_score_factor. py_cases; shift_done. Qed.

Lemma loan_history_shift (h : string) :
  shifts_rate (-0.3) 0.5 (loan_history_factor h).
Proof.
  unfold loan_history_factor.
  destruct (String.eqb h "excellent"); [shift_done |].
  destruct (String.eqb h "good"); [shift_done |].
  destruct (String.eqb h "poor"); shift_done.
Qed.

Lemma income_shift (a : Q) : shifts_rate (-0.2) 0.3 (income_factor a).
Proof. unfold income_factor. py_cases; shift_done. Qed.

Lemma employment_shift (e : string) :
  shifts_rate (-0.4) 0.3 (employment_factor e).
Proof.
  unfold employment_factor.
  destruct (String.eqb e "government"); [shift_done |].
  destruct (String.eqb e "mnc"); [shift_done |].
  destruct (String.eqb e "self_employed"); [shift_done |].
  destruct (String.eqb e "business_owner"); shift_done.
Qed.

Lemma job_stability_shift (y : Q) :
  shifts_rate (-0.1) 0.2 (job_stability_factor y).
Proof. unfold job_stability_factor. py_cases; shift_done. Qed.

Lemma loan_amount_shift (a : Q) : shifts_rate (-0.25) 0.2 (loan_amount_factor a).
Proof. unfold loan_amount_factor. py_cases; shift_done. Qed.

Lemma tenure_shift (t : Z) : shifts_rate (-0.1) 0.2 (tenure_factor t).
Proof.
  unfold tenure_factor.
  destruct (t <=? 12)%Z; [shift_done |].
  destruct (t >=? 60)%Z; shift_done.
Qed.

Lemma festive_shift (b : bool) : shifts_rate (-0.15) 0 (festive_factor b).
Proof. unfold festive_factor. destruct b; shift_done. Qed.

Lemma existing_loans_shift (b : bool) :
  shifts_rate (-0.1) 0 (existing_loans_factor b).
Proof. unfold existing_loans_factor. destruct b; shift_done. Qed.

(** A higher credit score never gets a higher shift. *)
Lemma credit_score_antitone (s1 s2 : Q) (f : Factors) :
  s1 <= s2 ->
  rate_adjustment (credit_score_factor s2 f)
  <= rate_adjustment (credit_score_factor s1 f).
Proof.
  intro Hle. unfold credit_score_factor.
  py_cases; cbn [rate_adjustment rate_add rate_sub fee_mul limit_mul]; lra.
Qed.

(** The rate adjustment after the pass is the sum of the twelve shifts. *)
Ltac open_shifts customer_data amount months :=
  destruct (account_age_shift (get (account_age_years customer_data) 0))
    as [d1 [B1 E1]];
  destruct (salary_account_shift (get (is_salary_account customer_data) false))
    as [d2 [B2 E2]];
  destruct (balance_shift (get (avg_monthly_balance customer_data) 0))
    as [d3 [B3 E3]];
  destruct (loan_history_shift
              (get (loan_history_score customer_data) "good"%string))
    as [d5 [B5 E5]];
  destruct (income_shift (get (monthly_income customer_data) 0))
    as [d6 [B6 E6]];
  destruct (employment_shift
              (get (employment_type customer_data) "salaried"%string))
    as [d7 [B7 E7]];
  destruct (job_stability_shift (get (job_stability_years customer_data) 2))
    as [d8 [B8 E8]];
  destruct (loan_amount_shift amount) as [d9 [B9 E9]];
  destruct (tenure_shift months) as [d10 [B10 E10]];
  destruct (festive_shift (get (is_festive_season customer_data) false))
    as [d11 [B11 E11]];
  destruct (existing_loans_shift (get (has_existing_loans customer_data) false))
    as [d12 [B12 E12]].

(** The table sum of a scoring pass lies between -3.30 and +3.25. *)
Lemma table_sum_bounded (customer_data : CustomerData) (amount : Q)
    (months : Z) :
  -3.30 <= rate_adjustment (pricing_factors customer_data amount months)
  /\ rate_adjustment (pricing_factors customer_data amount months) <= 3.25.
Proof.
  unfold pricing_factors.
  open_shifts customer_data amount months.
  destruct (credit_score_shift (get (credit_score customer_data) 750))
    as [d4 [B4 E4]].
  rewrite E12, E11, E10, E9, E8, E7, E6, E5, E4, E3, E2, E1.
  cbn [rate_adjustment initial_factors]. lra.
Qed.

(** C6: with every other profile and request field fixed, a higher credit
    score never yields a higher rate adjustment; in particular across the
    tier boundaries 649 -> 650, 699 -> 700, 749 -> 750 and 799 -> 800. *)
Theorem credit_score_monotone
    (customer_data : CustomerData) (loan_amount : Q) (requested_tenure : Z)
    (score score' : Q) :
  score <= score' ->
  let adjustment (s : Q) :=
    rate_adjustment
      (pricing_factors (with_credit_score customer_data s)
         (resolve_loan_amount (with_credit_score customer_data s) loan_amount)
         (resolve_tenure (with_credit_score customer_data s) requested_tenure))
  in adjustment score' <= adjustment score.
Proof.
  intros Hle. cbv zeta. unfold pricing_factors, resolve_loan_amount,
    resolve_tenure.
  cbn [with_credit_score account_age_years is_salary_account
       avg_monthly_balance credit_score loan_history_score monthly_income
       employment_type job_stability_years is_festive_season
       has_existing_loans loan_offer tenure get].
  fold (resolve_loan_amount customer_data loan_amount).
  fold (resolve_tenure customer_data requested_tenure).
  open_shifts customer_data (resolve_loan_amount customer_data loan_amount)
    (resolve_tenure customer_data requested_tenure).
  cbn [get] in *.
  rewrite !E12, !E11, !E10, !E9, !E8, !E7, !E6, !E5.
  match goal with
  | |- context [credit_score_factor score' ?f] =>
      pose proof (credit_score_antitone score score' f Hle)
  end.
  lra.
Qed.

Lemma credit_score_monotone_witness :
  rate_adjustment (pricing_factors (with_credit_score example_profile 650)
                     500000 24)
  <= rate_adjustment (pricing_factors (with_credit_score example_profile 649)
                        500000 24).
Proof.
  apply (credit_score_monotone example_profile 0 0 649 650).
  vm_compute. discriminate.
Defined.

(** ** The scoring pass in binary64

    The running sum depends on the profile only through the branch each of
    the twelve groups takes, so it is one of finitely many numbers:
    [Binary64.reachable] lists them, each with the sum of the table
    entries it is the rounded sum of. *)

Lemma same_state_eq (x y : Binary64.State) :
  Binary64.same_state x y = true -> x = y.
Proof.
  destruct x as [zx rx], y as [zy ry]. unfold Binary64.same_state. cbn [fst snd].
  intro H. apply andb_true_iff in H. destruct H as [Hz Hr].
  apply Z.eqb_eq in Hz. apply FloatAxioms.Leibniz.eqb_spec in Hr.
  congruence.
Qed.

Lemma in_insert (x y : Binary64.State) (states : list Binary64.State) :
  y = x \/ In y states -> In y (Binary64.insert x states).
Proof.
  induction states as [| z rest IH]; cbn [Binary64.insert].
  - intros [-> | []]. left. reflexivity.
  - destruct (Binary64.same_state x z) eqn:E.
    + apply same_state_eq in E. subst z. intros [-> | H]; [left; reflexivity | exact H].
    + intros [-> | [-> | H]].
      * right. apply IH. left. reflexivity.
      * left. reflexivity.
      * right. apply IH. right. exact H.
Qed.

Lemma in_fold_insert (y : Binary64.State) (states : list Binary64.State) :
  In y states -> In y (fold_right Binary64.insert [] states).
Proof.
  induction states as [| x rest IH]; [intros [] |].
  cbn [fold_right]. intros [-> | H]; apply in_insert; [left; reflexivity |].
  right. apply IH. exact H.
Qed.

Lemma in_after_group (moves : list Binary64.Move) (states : list Binary64.State)
    (s : Binary64.State) (mv : Binary64.Move) :
  In s states -> In mv moves ->
  In (Binary64.apply_move s mv) (Binary64.after_group moves states).
Proof.
  intros Hs Hm. unfold Binary64.after_group. apply in_fold_insert.
  apply in_flat_map. exists s. split; [exact Hs |].
  apply in_map. exact Hm.
Qed.

Lemma stands_for_after (moves : list Binary64.Move)
    (states : list Binary64.State) (exact : Factors -> Factors)
    (run : float -> float) (f : Factors) (r : float) :
  tracks moves exact run ->
  stands_for states (rate_adjustment f) r ->
  stands_for (Binary64.after_group moves states)
    (rate_adjustment (exact f)) (run r).
Proof.
  intros [mv [Hin [Hq Hr]]] [h [Eh Hs]].
  exists (h + fst mv)%Z. split.
  - rewrite Hq, Eh. unfold Qeq. cbn. lia.
  - rewrite Hr. exact (in_after_group moves states (h, r) mv Hs Hin).
Qed.

Ltac at_position n :=
  match n with
  | O => left; reflexivity
  | S ?k => right; at_position k
  end.

Ltac take_move n :=
  eexists; split; [cbn [In]; at_position n |];
  split;
  [ intro; cbn [rate_adjustment rate_add rate_sub fee_mul limit_mul fst];
    lra
  | intro; reflexivity ].

Ltac track_done :=
  unfold tracks;
  first [ solve [take_move 0%nat] | solve [take_move 1%nat]
        | solve [take_move 2%nat] | solve [take_move 3%nat]
        | solve [take_move 4%nat] ].

Lemma account_age_tracks (a : Q) :
  tracks Binary64.account_age_moves (account_age_factor a)
    (Binary64.account_age_factor a).
Proof.
  unfold account_age_factor, Binary64.account_age_factor,
    Binary64.account_age_moves, Binary64.keep.
  py_cases; track_done.
Qed.

Lemma salary_account_tracks (b : bool) :
  tracks Binary64.salary_account_moves (salary_account_factor b)
    (Binary64.salary_account_factor b).
Proof.
  unfold salary_account_factor, Binary64.salary_account_factor,
    Binary64.salary_account_moves, Binary64.keep.
  destruct b; track_done.
Qed.

Lemma balance_tracks (a : Q) :
  tracks Binary64.balance_moves (balance_factor a) (Binary64.balance_factor a).
Proof.
  unfold balance_factor, Binary64.balance_factor, Binary64.balance_moves,
    Binary64.keep.
  py_cases; track_done.
Qed.

Lemma credit_score_tracks (s : Q) :
  tracks Binary64.credit_score_moves (credit_score_factor s)
    (Binary64.credit_score_factor s).
Proof.
  unfold credit_score_factor, Binary64.credit_score_factor,
    Binary64.credit_score_moves.
  py_cases; track_done.
Qed.

Lemma loan_history_tracks (h : string) :
  tracks Binary64.loan_history_moves (loan_history_factor h)
    (Binary64.loan_history_factor h).
Proof.
  unfold loan_history_factor, Binary64.loan_history_factor,
    Binary64.loan_history_moves, Binary64.keep.
  destruct (String.eqb h "excellent"); [track_done |].
  destruct (String.eqb h "good"); [track_done |].
  destruct (String.eqb h "poor"); track_done.
Qed.

Lemma income_tracks (a : Q) :
  tracks Binary64.income_moves (income_factor a) (Binary64.income_factor a).
Proof.
  unfold income_factor, Binary64.income_factor, Binary64.income_moves,
    Binary64.keep.
  py_cases; track_done.
Qed.

Lemma employment_tracks (e : string) :
  tracks Binary64.employment_moves (employment_factor e)
    (Binary64.employment_factor e).
Proof.
  unfold employment_factor, Binary64.employment_factor,
    Binary64.employment_moves, Binary64.keep.
  destruct (String.eqb e "government"); [track_done |].
  destruct (String.eqb e "mnc"); [track_done |].
  destruct (String.eqb e "self_employed"); [track_done |].
  destruct (String.eqb e "business_owner"); track_done.
Qed.

Lemma job_stability_tracks (y : Q) :
  tracks Binary64.job_stability_moves (job_stability_factor y)
    (Binary64.job_stability_factor y).
Proof.
  unfold job_stability_factor, Binary64.job_stability_factor,
    Binary64.job_stability_moves, Binary64.keep.
  py_cases; track_done.
Qed.

Lemma loan_amount_tracks (a : Q) :
  tracks Binary64.loan_amount_moves (loan_amount_factor a)
    (Binary64.loan_amount_factor a).
Proof.
  unfold loan_amount_factor, Binary64.loan_amount_factor,
    Binary64.loan_amount_moves, Binary64.keep.
  py_cases; track_done.
Qed.

Lemma tenure_tracks (t : Z) :
  tracks Binary64.tenure_moves (tenure_factor t) (Binary64.tenure_factor t).
Proof.
  unfold tenure_factor, Binary64.tenure_factor, Binary64.tenure_moves,
    Binary64.keep.
  destruct (t <=? 12)%Z; [track_done |].
  destruct (t >=? 60)%Z; track_done.
Qed.

Lemma festive_tracks (b : bool) :
  tracks Binary64.festive_moves (festive_factor b) (Binary64.festive_factor b).
Proof.
  unfold festive_factor, Binary64.festive_factor, Binary64.festive_moves,
    Binary64.keep.
  destruct b; track_done.
Qed.

Lemma existing_loans_tracks (b : bool) :
  tracks Binary64.existing_loans_moves (existing_loans_factor b)
    (Binary64.existing_loans_factor b).
Proof.
  unfold existing_loans_factor, Binary64.existing_loans_factor,
    Binary64.existing_loans_moves, Binary64.keep.
  destruct b; cbn [negb]; track_done.
Qed.

(** The table sum and the running sum of a scoring pass are one of the
    states of [Binary64.reachable]. *)
Lemma scoring_pass_reachable (customer_data : CustomerData) (amount : Q)
    (months : Z) :
  stands_for Binary64.reachable
    (rate_adjustment (pricing_factors customer_data amount months))
    (Binary64.rate_adjustment customer_data amount months).
Proof.
  unfold pricing_factors, Binary64.rate_adjustment, Binary64.reachable.
  apply stands_for_after; [apply existing_loans_tracks |].
  apply stands_for_after; [apply festive_tracks |].
  apply stands_for_after; [apply tenure_tracks |].
  apply stands_for_after; [apply loan_amount_tracks |].
  apply stands_for_after; [apply job_stability_tracks |].
  apply stands_for_after; [apply employment_tracks |].
  apply stands_for_after; [apply income_tracks |].
  apply stands_for_after; [apply loan_history_tracks |].
  apply stands_for_after; [apply credit_score_tracks |].
  apply stands_for_after; [apply balance_tracks |].
  apply stands_for_after; [apply salary_account_tracks |].
  apply stands_for_after; [apply account_age_tracks |].
  exists 0%Z. split; [reflexivity | left; reflexivity].
Qed.

Lemma reachable_ok : forallb Binary64.state_ok Binary64.reachable = true.
Proof. vm_compute. reflexivity. Qed.

(** Every scoring pass ends in a state that passes [Binary64.state_ok]. *)
Lemma scoring_pass_ok (customer_data : CustomerData) (amount : Q) (months : Z) :
  exists hundredths,
    rate_adjustment (pricing_factors customer_data amount months)
    == hundredths # 100
    /\ Binary64.state_ok
         (hundredths, Binary64.rate_adjustment customer_data amount months)
       = true.
Proof.
  destruct (scoring_pass_reachable customer_data amount months) as [h [Eh Hin]].
  exists h. split; [exact Eh |].
  exact (proj1 (forallb_forall _ _) reachable_ok _ Hin).
Qed.

(** The conjuncts of [Binary64.state_ok]. *)
Lemma state_ok_inv (hundredths : Z) (running : float) :
  Binary64.state_ok (hundredths, running) = true ->
  ((-3.3000000000000003 <=? running)%float = true
   /\ (running <=? 3.25)%float = true)
  /\ (Binary64.value (-3.3000000000000003)%float <= Binary64.value running
      /\ Binary64.value running <= 3.25)
  /\ Qabs (Binary64.value running - (hundredths # 100))
     <= 1 # 1000000000000000
  /\ ((hundredths < -10)%Z -> (running <? -0.1)%float = true)
  /\ ((-10 < hundredths)%Z -> (running <? -0.1)%float = false)
  /\ ((10 < hundredths)%Z -> (0.1 <? running)%float = true)
  /\ ((hundredths < 10)%Z -> (0.1 <? running)%float = false).
Proof.
  unfold Binary64.state_ok. cbn [fst snd]. intro H.
  repeat (apply andb_true_iff in H; let H' := fresh "H" in destruct H as [H H']).
  repeat split; try assumption; try (apply Qle_bool_iff; assumption).
  - intro Hlt. destruct (Z.ltb_spec hundredths (-10)); [assumption | lia].
  - intro Hlt. destruct (Z.ltb_spec (-10) hundredths); [| lia].
    apply negb_true_iff. assumption.
  - intro Hlt. destruct (Z.ltb_spec 10 hundredths); [assumption | lia].
  - intro Hlt. destruct (Z.ltb_spec hundredths 10); [| lia].
    apply negb_true_iff. assumption.
Qed.

Lemma hundredths_lt (h k : Z) (q : Q) :
  q == h # 100 -> (q < k # 100 <-> (h < k)%Z) /\ (k # 100 < q <-> (k < h)%Z).
Proof.
  intro E. rewrite E. unfold Qlt. cbn [Qnum Qden]. lia.
Qed.

(** The running sum stays within 1e-15 of the table sum. *)
Lemma rate_adjustment_close (customer_data : CustomerData) (amount : Q)
    (months : Z) :
  Qabs (Binary64.value (Binary64.rate_adjustment customer_data amount months)
        - rate_adjustment (pricing_factors customer_data amount months))
  <= 1 # 1000000000000000.
Proof.
  destruct (scoring_pass_ok customer_data amount months) as [h [Eh Hok]].
  apply state_ok_inv in Hok. destruct Hok as (_ & _ & Hnear & _).
  rewrite Eh. exact Hnear.
Qed.

(** C9 (as stated, refuted): on the best-case profile the running sum
    [rate_adjustment] that the code accumulates is -3.3000000000000003,
    which is below -3.30, both for the interpreter's comparison and as a
    rational. *)
Lemma best_case_adjustment_below_bound :
  resolve_loan_amount best_case_profile 0 = 2500000
  /\ resolve_tenure best_case_profile 0 = 12%Z
  /\ Binary64.rate_adjustment best_case_profile 2500000 12
     = (-3.3000000000000003)%float
  /\ (Binary64.rate_adjustment best_case_profile 2500000 12 <? -3.30)%float
     = true
  /\ Binary64.value (Binary64.rate_adjustment best_case_profile 2500000 12)
     < -3.30.
Proof.
  split; [reflexivity |]. split; [reflexivity |].
  split; [vm_compute; reflexivity |]. split; vm_compute; reflexivity.
Qed.

(** C9 (amended): whatever the profile and the request, the sum of the
    twelve table entries that the scoring pass selects lies between -3.30
    and +3.25; the binary64 running sum [rate_adjustment] that the code
    accumulates from them stays within 1e-15 of that sum and lies between
    -3.3000000000000003 (one rounding step below -3.30) and 3.25. *)
Theorem rate_adjustment_bounded
    (customer_data : CustomerData) (loan_amount : Q) (requested_tenure : Z) :
  let amount := resolve_loan_amount customer_data loan_amount in
  let months := resolve_tenure customer_data requested_tenure in
  let table_sum := rate_adjustment (pricing_factors customer_data amount months) in
  let running := Binary64.rate_adjustment customer_data amount months in
  (-3.30 <= table_sum /\ table_sum <= 3.25)
  /\ Qabs (Binary64.value running - table_sum) <= 1 # 1000000000000000
  /\ (Binary64.value (-3.3000000000000003)%float <= Binary64.value running
      /\ Binary64.value running <= 3.25)
  /\ ((-3.3000000000000003 <=? running)%float = true
      /\ (running <=? 3.25)%float = true).
Proof.
  intros amount months table_sum running.
  destruct (scoring_pass_ok customer_data amount months) as [h [Eh Hok]].
  apply state_ok_inv in Hok.
  destruct Hok as (Hcmp & Hval & Hnear & _).
  fold table_sum in Eh. fold running in Hcmp, Hval, Hnear.
  split; [apply table_sum_bounded |].
  split; [rewrite Eh; exact Hnear |].
  split; assumption.
Qed.

(** ** calculate_dynamic_pricing *)

Section Pricing.

Variable customer_data : CustomerData.
Variable loan_amount : Q.
Variable requested_tenure : Z.

Let amount : Q := resolve_loan_amount customer_data loan_amount.
Let months : Z := resolve_tenure customer_data requested_tenure.
Let base_rate : Q := get (interest_rate customer_data) 12.0.
Let f : Factors := pricing_factors customer_data amount months.
Let final_rate : Q :=
  Py.max 8.0 (Py.min 18.0 (base_rate + rate_adjustment f)).

(** The gate [if not base_loan_amount or not base_interest_rate]. *)
Lemma pricing_gate :
  negb (Py.truthy amount) || negb (Py.truthy base_rate) = true
  <-> (amount == 0 \/ base_rate == 0).
Proof.
  destruct (truthy_spec amount) as [Ha | Ha];
    destruct (truthy_spec base_rate) as [Hb | Hb]; simpl; split; auto.
  - discriminate.
  - tauto.
  - intros _. right. destruct (Qeq_dec base_rate 0); tauto.
  - intros _. left. destruct (Qeq_dec amount 0); tauto.
  - intros _. left. destruct (Qeq_dec amount 0); tauto.
Qed.

Lemma final_rate_clamped : 8 <= final_rate /\ final_rate <= 18.
Proof.
  unfold final_rate.
  set (adjusted := base_rate + rate_adjustment f).
  destruct (max_spec 8.0 (Py.min 18.0 adjusted)) as [H1 [H2 [E | E]]];
    destruct (min_spec 18.0 adjusted) as [H3 [H4 _]]; rewrite E in *; lra.
Qed.

(** The tool returns the missing-data sentence exactly when the gate
    closes. *)
Lemma pricing_missing_iff :
  calculate_dynamic_pricing customer_data loan_amount requested_tenure
  = Message missing_essential_data
  <-> (amount == 0 \/ base_rate == 0).
Proof.
  rewrite <- pricing_gate. unfold calculate_dynamic_pricing.
  fold amount months base_rate. fold f. fold final_rate.
  destruct (negb (Py.truthy amount) || negb (Py.truthy base_rate)).
  - split; reflexivity.
  - destruct (emi_formula amount (final_rate / 100 / 12) months);
      [| split; discriminate].
    destruct (emi_formula amount (base_rate / 100 / 12) months);
      split; discriminate.
Qed.

(** What a priced text holds. *)
Lemma pricing_text_inv (r : PricingResult) :
  calculate_dynamic_pricing customer_data loan_amount requested_tenure = Text r ->
  ~ amount == 0 /\ ~ base_rate == 0
  /\ factors r = f
  /\ base_interest_rate r = base_rate
  /\ final_interest_rate r = final_rate
  /\ base_tenure r = months
  /\ max_eligible_amount r = amount * max_loan_multiplier f
  /\ final_processing_fee r
     = get (processing_fee customer_data) (amount * 0.02)
       * processing_fee_multiplier f
  /\ emi_formula amount (final_rate / 100 / 12) months = Some (final_emi r).
Proof.
  unfold calculate_dynamic_pricing.
  fold amount months base_rate. fold f. fold final_rate.
  destruct (negb (Py.truthy amount) || negb (Py.truthy base_rate)) eqn:G;
    [discriminate |].
  assert (Hopen : ~ (amount == 0 \/ base_rate == 0)).
  { intro H. apply pricing_gate in H. congruence. }
  destruct (emi_formula amount (final_rate / 100 / 12) months) eqn:E1;
    [| discriminate].
  destruct (emi_formula amount (base_rate / 100 / 12) months) eqn:E2;
    [| discriminate].
  cbn [bind ret try_except]. intro H. injection H as <-.
  cbn. repeat split; tauto.
Qed.

End Pricing.

(** C1: whenever the engine accepts the request and prices it, the
    [final_interest_rate] of the result lies in [8.0, 18.0], however extreme
    the profile; it is pinned to 18.0 when the adjusted rate (base rate plus
    rate adjustment) reaches 18.0 or more, and to 8.0 when it is 8.0 or
    less. *)
Theorem final_interest_rate_clamped
    (customer_data : CustomerData) (loan_amount : Q) (requested_tenure : Z)
    (r : PricingResult) :
  calculate_dynamic_pricing customer_data loan_amount requested_tenure = Text r ->
  let adjusted :=
    get (interest_rate customer_data) 12.0
    + rate_adjustment
        (pricing_factors customer_data
           (resolve_loan_amount customer_data loan_amount)
           (resolve_tenure customer_data requested_tenure)) in
  (8 <= final_interest_rate r /\ final_interest_rate r <= 18)
  /\ (18 <= adjusted -> final_interest_rate r == 18)
  /\ (adjusted <= 8 -> final_interest_rate r == 8)
  /\ base_interest_rate r + rate_adjustment (factors r) = adjusted.
Proof.
  intros H adjusted. apply pricing_text_inv in H.
  destruct H as (_ & _ & Ef & Eb & Er & _).
  rewrite Er, Ef, Eb. fold adjusted.
  split; [apply final_rate_clamped |].
  split; [| split; [| reflexivity]].
  - intro Hhi. unfold Py.max, Py.min.
    destruct (lt_spec adjusted 18.0); py_cases; lra.
  - intro Hlo. unfold Py.max, Py.min.
    destruct (lt_spec adjusted 18.0); py_cases; lra.
Qed.

Lemma final_interest_rate_clamped_witness :
  exists r, calculate_dynamic_pricing example_profile 0 0 = Text r
    /\ 8 <= final_interest_rate r /\ final_interest_rate r <= 18.
Proof.
  eexists. split; [vm_compute; reflexivity |].
  eapply (final_interest_rate_clamped example_profile 0 0).
  vm_compute. reflexivity.
Defined.

(** C3 (as stated, refuted): on the profile of the worked example with an
    empty request the rate adjustment is not -2.3 and the final rate is not
    8.2. *)
Lemma example_profile_not_minus_2_3 :
  exists r, calculate_dynamic_pricing example_profile 0 0 = Text r
    /\ ~ rate_adjustment (factors r) == -2.3
    /\ ~ final_interest_rate r == 8.2.
Proof.
  eexists. split; [vm_compute; reflexivity |].
  split; intro H; vm_compute in H; discriminate H.
Qed.

(** C3 (amended): on that profile the cumulative rate adjustment is -2.0
    (account age -0.5, salary account -0.3, balance -0.4, credit score -0.5,
    loan history defaulting to "good" -0.1, income of 90000 -0.1, no
    existing loans -0.1) and the final interest rate is 10.5 - 2.0 = 8.5. *)
Theorem example_profile_pricing :
  exists r, calculate_dynamic_pricing example_profile 0 0 = Text r
    /\ rate_adjustment (factors r) == -2.0
    /\ final_interest_rate r == 8.5
    /\ base_interest_rate r == 10.5.
Proof.
  eexists. split; [vm_compute; reflexivity |].
  repeat split; vm_compute; reflexivity.
Qed.

(** C4 (as stated, refuted): a profile without [interest_rate] is priced at
    the default base rate of 12.0 instead of failing for missing data, and a
    profile that passes the gate with a tenure of zero months gets neither
    a priced result nor the missing-data sentence. *)
Lemma absent_rate_priced_zero_tenure_unpriced :
  (interest_rate offer_only_profile = None
   /\ exists r, calculate_dynamic_pricing offer_only_profile 0 0 = Text r
        /\ base_interest_rate r == 12)
  /\ calculate_dynamic_pricing zero_tenure_profile 0 0 = Message unable_pricing.
Proof.
  split; [split; [reflexivity |] | vm_compute; reflexivity].
  eexists. split; vm_compute; reflexivity.
Qed.

(** The three outcomes of the pricing tool, and the one of a zero tenure. *)
Lemma pricing_outcomes
    (customer_data : CustomerData) (loan_amount : Q) (requested_tenure : Z) :
  let result :=
    calculate_dynamic_pricing customer_data loan_amount requested_tenure in
  ((exists r, result = Text r)
   \/ result = Message missing_essential_data
   \/ result = Message unable_pricing)
  /\ (result <> Message missing_essential_data ->
      resolve_tenure customer_data requested_tenure = 0%Z ->
      result = Message unable_pricing).
Proof.
  cbv zeta. unfold calculate_dynamic_pricing.
  destruct (negb (Py.truthy (resolve_loan_amount customer_data loan_amount))
            || negb (Py.truthy (get (interest_rate customer_data) 12.0))).
  - split; [right; left; reflexivity |]. intro H. exfalso. apply H. reflexivity.
  - destruct (emi_formula _ _ _) as [fe |] eqn:E1; cbn [bind].
    + destruct (emi_formula _ _ _) as [be |] eqn:E2 in |- *; cbn [bind].
      * split; [left; eexists; reflexivity |].
        intros _ Hz. rewrite Hz in E1.
        assert (N : forall p m, emi_formula p m 0 = None).
        { intros p m. apply emi_formula_raises. right. reflexivity. }
        rewrite N in E1. discriminate E1.
      * split; [right; right; reflexivity | intros _ _; reflexivity].
    + split; [right; right; reflexivity | intros _ _; reflexivity].
Qed.

(** C4 (amended): the tool returns the missing-data sentence exactly when
    the resolved loan amount is zero (the request's [loan_amount] is not
    positive and the profile's [loan_offer] is zero or absent) or the
    profile's [interest_rate] is present and zero; an absent [interest_rate]
    counts as 12.0.  In the other cases it returns a priced result or, when
    an evaluation raises, the generic "Unable to calculate personalized
    pricing" sentence; with a resolved tenure of zero it always returns
    that sentence. *)
Theorem missing_data_iff
    (customer_data : CustomerData) (loan_amount : Q) (requested_tenure : Z) :
  let result :=
    calculate_dynamic_pricing customer_data loan_amount requested_tenure in
  (result = Message missing_essential_data
   <-> ((~ 0 < loan_amount /\ get (loan_offer customer_data) 0 == 0)
        \/ exists rate, interest_rate customer_data = Some rate /\ rate == 0))
  /\ ((exists r, result = Text r)
      \/ result = Message missing_essential_data
      \/ result = Message unable_pricing)
  /\ (result <> Message missing_essential_data ->
      resolve_tenure customer_data requested_tenure = 0%Z ->
      result = Message unable_pricing).
Proof.
  intro result.
  assert (Hamount : resolve_loan_amount customer_data loan_amount == 0
                    <-> (~ 0 < loan_amount
                         /\ get (loan_offer customer_data) 0 == 0)).
  { unfold resolve_loan_amount.
    destruct (gt_spec loan_amount 0) as [Hpos | Hnot]; split.
    - intro H. lra.
    - tauto.
    - tauto.
    - tauto. }
  assert (Hrate : get (interest_rate customer_data) 12.0 == 0
                  <-> exists rate, interest_rate customer_data = Some rate
                                   /\ rate == 0).
  { destruct (interest_rate customer_data) as [rate |]; simpl; split.
    - intro H. exists rate. tauto.
    - intros [rate' [E H]]. injection E as ->. exact H.
    - intro H. discriminate H.
    - intros [rate' [E _]]. discriminate E. }
  split.
  - unfold result. rewrite pricing_missing_iff, Hamount, Hrate. tauto.
  - exact (pricing_outcomes customer_data loan_amount requested_tenure).
Qed.

Lemma missing_data_iff_witness :
  calculate_dynamic_pricing zero_tenure_profile 0 0 = Message unable_pricing.
Proof.
  apply (proj2 (proj2 (missing_data_iff zero_tenure_profile 0 0))).
  - vm_compute. discriminate.
  - reflexivity.
Defined.

(** ** Extreme profiles *)

(** Both bounds of the table sum are reached, and the clamp then pins the
    final rate. *)
Example worst_case_pinned :
  exists r, calculate_dynamic_pricing worst_case_profile 0 0 = Text r
    /\ rate_adjustment (factors r) == 3.25
    /\ final_interest_rate r == 18.0.
Proof.
  eexists. split; [vm_compute; reflexivity |].
  split; vm_compute; reflexivity.
Qed.

Example best_case_pinned :
  exists r, calculate_dynamic_pricing best_case_profile 0 0 = Text r
    /\ rate_adjustment (factors r) == -3.30
    /\ final_interest_rate r == 8.0.
Proof.
  eexists. split; [vm_compute; reflexivity |].
  split; vm_compute; reflexivity.
Qed.

(** * Further properties *)

(** ** Amortization: how the instalment moves *)











(** ** calculate_loan_savings: gate, shape and figures *)

Lemma for_in_tenure_options (L m ci : Q) (T : Z) (ns : list Z) :
  forall result r,
  for_in ns (tenure_option L m ci T) result = Some r ->
  exists rest, r = result ++ rest
    /\ Forall2 (fun n b => exists e d g, b = TenureOption n e d g)
         (filter (fun n => negb (n =? T)%Z) ns) rest.
Proof.
  induction ns as [| n ns IH]; intros result r H.
  - cbn in H. injection H as <-. exists []. rewrite app_nil_r.
    split; [reflexivity | constructor].
  - cbn [for_in] in H.
    destruct (tenure_option L m ci T n result) as [r1 |] eqn:E1;
      cbn [bind] in H; [| discriminate].
    apply IH in H. destruct H as [rest [-> HF]].
    apply tenure_option_inv in E1.
    destruct E1 as [[-> ->] | [Hne [e [_ ->]]]].
    + exists rest. split; [reflexivity |].
      cbn [filter]. rewrite Z.eqb_refl. exact HF.
    + eexists. split; [rewrite <- app_assoc; reflexivity |].
      cbn [filter]. destruct (Z.eqb_spec n T); [tauto |]. cbn [negb app].
      constructor; [| exact HF]. do 3 eexists. reflexivity.
Qed.

(** X6: every text of the savings tool starts with the current loan structure
    (total = EMI * tenure, interest = total - loan) and goes on in exactly
    one of three ways: nothing (positive prepayment covering the loan), one
    prepayment comparison (positive prepayment below the loan), or one
    tenure option per candidate tenure other than the current one (no
    positive prepayment).  Prepayment and tenure blocks never mix. *)
Theorem savings_text_shape (customer_data : CustomerData)
    (prepayment_amount : Q) (blocks : list SavingsBlock) :
  calculate_loan_savings customer_data prepayment_amount = Text blocks ->
  let loan_amount := get (loan_offer customer_data) 0 in
  let months := get (tenure customer_data) 12%Z in
  exists current_emi rest,
    blocks = CurrentLoanStructure current_emi
               (current_emi * inject_Z months - loan_amount)
               (current_emi * inject_Z months) :: rest
    /\ ((0 < prepayment_amount /\ loan_amount <= prepayment_amount
         /\ rest = [])
        \/ (0 < prepayment_amount /\ prepayment_amount < loan_amount
            /\ exists new_emi savings new_total,
                 rest = [WithPrepayment prepayment_amount new_emi savings
                           new_total])
        \/ (~ 0 < prepayment_amount
            /\ Forall2 (fun n b => exists e d g, b = TenureOption n e d g)
                 (other_tenures months) rest)).
Proof.
  intros H loan_amount months. unfold calculate_loan_savings in H.
  fold loan_amount months in H.
  destruct (negb (Py.truthy loan_amount
                  && Py.truthy (get (interest_rate customer_data) 0)
                  && Py.truthyZ months)); [discriminate |].
  destruct (emi_formula loan_amount
              (get (interest_rate customer_data) 0 / 100 / 12) months)
    as [e |]; cbn [bind] in H; [| discriminate].
  exists e.
  destruct (gt_spec prepayment_amount 0) as [Hpos | Hnot].
  - destruct (gt_spec (loan_amount - prepayment_amount) 0) as [Hrem | Hrem].
    + destruct (emi_formula (loan_amount - prepayment_amount)
                  (get (interest_rate customer_data) 0 / 100 / 12) months)
        as [ne |]; cbn [bind] in H; [| discriminate].
      injection H as <-. eexists. split; [reflexivity |].
      right. left. split; [exact Hpos |]. split; [lra |].
      do 3 eexists. reflexivity.
    + cbn [bind ret] in H. injection H as <-. exists [].
      split; [reflexivity |]. left. repeat split; [exact Hpos | lra].
  - destruct (for_in [12; 24; 36; 60]%Z _ _) as [r |] eqn:E;
      cbn [bind] in H; [| discriminate].
    injection H as <-. apply for_in_tenure_options in E.
    destruct E as [rest [-> HF]]. exists rest. split; [reflexivity |].
    right. right. split; [exact Hnot | exact HF].
Qed.

(** X5: the savings tool returns "Unable to calculate savings. Missing loan
    parameters." exactly when [loan_offer] is absent or zero, or
    [interest_rate] is absent or zero, or [tenure] is present and zero; an
    absent [tenure] counts as 12 and the prepayment plays no part. *)
Theorem savings_missing_iff (customer_data : CustomerData) (prepayment_amount : Q) :
  calculate_loan_savings customer_data prepayment_amount
  = Message missing_loan_parameters
  <-> (get (loan_offer customer_data) 0 == 0
       \/ get (interest_rate customer_data) 0 == 0
       \/ tenure customer_data = Some 0%Z).
Proof.
  unfold calculate_loan_savings.
  set (L := get (loan_offer customer_data) 0).
  set (R := get (interest_rate customer_data) 0).
  set (T := get (tenure customer_data) 12%Z).
  assert (HT : T = 0%Z <-> tenure customer_data = Some 0%Z).
  { unfold T. destruct (tenure customer_data) as [t |]; cbn [get]; split;
      intro H; try discriminate; congruence. }
  destruct (truthy_spec L) as [HL | HL]; destruct (truthy_spec R) as [HR | HR];
    destruct (truthyZ_spec T) as [Ht | Ht]; cbn [andb negb];
    try (split; [intros _ | reflexivity]).
  - (* gate open *)
    split; [| tauto].
    destruct (emi_formula L (R / 100 / 12) T); cbn [bind]; [| discriminate].
    destruct (prepayment_amount >? 0).
    + destruct (L - prepayment_amount >? 0); cbn [bind ret try_except];
        [| discriminate].
      destruct (emi_formula _ _ _); cbn [bind ret try_except]; discriminate.
    + destruct (for_in _ _ _); cbn [bind ret try_except]; discriminate.
  - right. right. apply HT. destruct (Z.eq_dec T 0); tauto.
  - right. left. destruct (Qeq_dec R 0); tauto.
  - right. left. destruct (Qeq_dec R 0); tauto.
  - left. destruct (Qeq_dec L 0); tauto.
  - left. destruct (Qeq_dec L 0); tauto.
  - left. destruct (Qeq_dec L 0); tauto.
  - left. destruct (Qeq_dec L 0); tauto.
Qed.

(** The first block of a text and the formula value it shows. *)
Lemma savings_text_head (customer_data : CustomerData)
    (prepayment_amount : Q) (blocks : list SavingsBlock) :
  calculate_loan_savings customer_data prepayment_amount = Text blocks ->
  let loan_amount := get (loan_offer customer_data) 0 in
  let months := get (tenure customer_data) 12%Z in
  exists current_emi rest,
    emi_formula loan_amount
      (get (interest_rate customer_data) 0 / 100 / 12) months
    = Some current_emi
    /\ blocks = CurrentLoanStructure current_emi
                  (current_emi * inject_Z months - loan_amount)
                  (current_emi * inject_Z months) :: rest.
Proof.
  intros H loan_amount months. unfold calculate_loan_savings in H.
  fold loan_amount months in H.
  destruct (negb _); [discriminate |].
  destruct (emi_formula loan_amount
              (get (interest_rate customer_data) 0 / 100 / 12) months)
    as [e |]; cbn [bind] in H; [| discriminate].
  exists e.
  destruct (prepayment_amount >? 0).
  - destruct (_ >? 0).
    + destruct (emi_formula _ _ _); cbn [bind ret try_except] in H;
        [| discriminate].
      injection H as <-. eexists. split; reflexivity.
    + cbn [bind ret try_except] in H. injection H as <-.
      eexists. split; reflexivity.
  - destruct (for_in _ _ _) as [r |] eqn:E; cbn [bind ret try_except] in H;
      [| discriminate].
    apply for_in_tenure_options in E. destruct E as [rest [-> _]].
    injection H as <-. eexists. split; reflexivity.
Qed.

(** X7: the current loan structure shown by the savings tool carries the EMI,
    total interest and total amount that [calculate_emi] returns for the
    profile's loan offer, rate and tenure. *)
Theorem savings_current_matches_calculate_emi (customer_data : CustomerData)
    (prepayment_amount : Q) (blocks : list SavingsBlock) :
  calculate_loan_savings customer_data prepayment_amount = Text blocks ->
  exists b rest,
    calculate_emi (get (loan_offer customer_data) 0)
      (get (interest_rate customer_data) 0)
      (get (tenure customer_data) 12%Z) = Text b
    /\ blocks = CurrentLoanStructure (eb_emi b) (eb_total_interest b)
                  (eb_total_amount b) :: rest.
Proof.
  intro H. destruct (savings_text_head _ _ _ H) as [e [rest [E ->]]].
  rewrite calculate_emi_unfold, E. do 2 eexists. split; reflexivity.
Qed.

(** ** calculate_dynamic_pricing: multipliers, tags and differences *)

Ltac scale_done :=
  first
    [ exists 1; split; [cbn [In]; tauto | intro; cbn; ring]
    | eexists; split;
      [| intro;
         cbn [processing_fee_multiplier max_loan_multiplier
              rate_add rate_sub fee_mul limit_mul]; reflexivity ];
      cbn [In]; tauto ].

Ltac branch_cases :=
  repeat match goal with
  | |- context [if ?c then _ else _] => destruct c
  end.

Ltac scale_group grp := unfold scales_fee, scales_limit, grp; branch_cases; scale_done.

Lemma account_age_fee a : scales_fee [1] (account_age_factor a).
Proof. scale_group account_age_factor. Qed.
Lemma account_age_limit a : scales_limit [1] (account_age_factor a).
Proof. scale_group account_age_factor. Qed.
Lemma salary_account_fee (b : bool) :
  scales_fee [if b then 0.8 else 1] (salary_account_factor b).
Proof. destruct b; scale_group salary_account_factor. Qed.
Lemma salary_account_limit b : scales_limit [1] (salary_account_factor b).
Proof. scale_group salary_account_factor. Qed.
Lemma balance_fee a : scales_fee [1] (balance_factor a).
Proof. scale_group balance_factor. Qed.
Lemma balance_limit a : scales_limit [1; 1.1; 1.2] (balance_factor a).
Proof. scale_group balance_factor. Qed.
Lemma credit_score_fee s : scales_fee [1] (credit_score_factor s).
Proof. scale_group credit_score_factor. Qed.
Lemma credit_score_limit s : scales_limit [0.8; 1; 1.3] (credit_score_factor s).
Proof. scale_group credit_score_factor. Qed.
Lemma loan_history_fee (h : string) :
  scales_fee [if String.eqb h "excellent" then 0.7 else 1] (loan_history_factor h).
Proof.
  unfold scales_fee, loan_history_factor.
  destruct (String.eqb h "excellent"); [scale_done |]. branch_cases; scale_done.
Qed.
Lemma loan_history_limit h : scales_limit [1] (loan_history_factor h).
Proof. scale_group loan_history_factor. Qed.
Lemma income_fee a : scales_fee [1] (income_factor a).
Proof. scale_group income_factor. Qed.
Lemma income_limit a : scales_limit [0.9; 1; 1.2; 1.4] (income_factor a).
Proof. scale_group income_factor. Qed.
Lemma employment_fee e : scales_fee [1] (employment_factor e).
Proof. scale_group employment_factor. Qed.
Lemma employment_limit e : scales_limit [1] (employment_factor e).
Proof. scale_group employment_factor. Qed.
Lemma job_stability_fee y : scales_fee [1] (job_stability_factor y).
Proof. scale_group job_stability_factor. Qed.
Lemma job_stability_limit y : scales_limit [1] (job_stability_factor y).
Proof. scale_group job_stability_factor. Qed.
Lemma loan_amount_fee a : scales_fee [1] (loan_amount_factor a).
Proof. scale_group loan_amount_factor. Qed.
Lemma loan_amount_limit a : scales_limit [1] (loan_amount_factor a).
Proof. scale_group loan_amount_factor. Qed.
Lemma tenure_fee t : scales_fee [1] (tenure_factor t).
Proof. scale_group tenure_factor. Qed.
Lemma tenure_limit t : scales_limit [1] (tenure_factor t).
Proof. scale_group tenure_factor. Qed.
Lemma festive_fee (b : bool) : scales_fee [if b then 0.9 else 1] (festive_factor b).
Proof. destruct b; scale_group festive_factor. Qed.
Lemma festive_limit b : scales_limit [1] (festive_factor b).
Proof. scale_group festive_factor. Qed.
Lemma existing_loans_fee b : scales_fee [1] (existing_loans_factor b).
Proof. scale_group existing_loans_factor. Qed.
Lemma existing_loans_limit b : scales_limit [1] (existing_loans_factor b).
Proof. scale_group existing_loans_factor. Qed.

Ltac pick k H := cbn [In] in H; repeat (destruct H as [H | H]); try contradiction; subst k.

Lemma fee_multiplier_product (customer_data : CustomerData) (amount : Q)
    (months : Z) :
  processing_fee_multiplier (pricing_factors customer_data amount months)
  == (if get (is_salary_account customer_data) false then 0.8 else 1)
     * (if String.eqb (get (loan_history_score customer_data) "good"%string)
            "excellent" then 0.7 else 1)
     * (if get (is_festive_season customer_data) false then 0.9 else 1).
Proof.
  unfold pricing_factors.
  destruct (account_age_fee (get (account_age_years customer_data) 0))
    as [k1 [H1 E1]].
  destruct (salary_account_fee (get (is_salary_account customer_data) false))
    as [k2 [H2 E2]].
  destruct (balance_fee (get (avg_monthly_balance customer_data) 0))
    as [k3 [H3 E3]].
  destruct (credit_score_fee (get (credit_score customer_data) 750))
    as [k4 [H4 E4]].
  destruct (loan_history_fee
              (get (loan_history_score customer_data) "good"%string))
    as [k5 [H5 E5]].
  destruct (income_fee (get (monthly_income customer_data) 0))
    as [k6 [H6 E6]].
  destruct (employment_fee
              (get (employment_type customer_data) "salaried"%string))
    as [k7 [H7 E7]].
  destruct (job_stability_fee (get (job_stability_years customer_data) 2))
    as [k8 [H8 E8]].
  destruct (loan_amount_fee amount) as [k9 [H9 E9]].
  destruct (tenure_fee months) as [k10 [H10 E10]].
  destruct (festive_fee (get (is_festive_season customer_data) false))
    as [k11 [H11 E11]].
  destruct (existing_loans_fee (get (has_existing_loans customer_data) false))
    as [k12 [H12 E12]].
  rewrite E12, E11, E10, E9, E8, E7, E6, E5, E4, E3, E2, E1.
  pick k1 H1. pick k2 H2. pick k3 H3. pick k4 H4. pick k5 H5. pick k6 H6.
  pick k7 H7. pick k8 H8. pick k9 H9. pick k10 H10. pick k11 H11. pick k12 H12.
  cbn [processing_fee_multiplier initial_factors]. ring.
Qed.

Lemma limit_multiplier_product (customer_data : CustomerData) (amount : Q)
    (months : Z) :
  exists kb kc ki,
    In kb [1; 1.1; 1.2] /\ In kc [0.8; 1; 1.3] /\ In ki [0.9; 1; 1.2; 1.4]
    /\ max_loan_multiplier (pricing_factors customer_data amount months)
       == kb * kc * ki.
Proof.
  unfold pricing_factors.
  destruct (account_age_limit (get (account_age_years customer_data) 0))
    as [k1 [H1 E1]].
  destruct (salary_account_limit (get (is_salary_account customer_data) false))
    as [k2 [H2 E2]].
  destruct (balance_limit (get (avg_monthly_balance customer_data) 0))
    as [k3 [H3 E3]].
  destruct (credit_score_limit (get (credit_score customer_data) 750))
    as [k4 [H4 E4]].
  destruct (loan_history_limit
              (get (loan_history_score customer_data) "good"%string))
    as [k5 [H5 E5]].
  destruct (income_limit (get (monthly_income customer_data) 0))
    as [k6 [H6 E6]].
  destruct (employment_limit
              (get (employment_type customer_data) "salaried"%string))
    as [k7 [H7 E7]].
  destruct (job_stability_limit (get (job_stability_years customer_data) 2))
    as [k8 [H8 E8]].
  destruct (loan_amount_limit amount) as [k9 [H9 E9]].
  destruct (tenure_limit months) as [k10 [H10 E10]].
  destruct (festive_limit (get (is_festive_season customer_data) false))
    as [k11 [H11 E11]].
  destruct (existing_loans_limit (get (has_existing_loans customer_data) false))
    as [k12 [H12 E12]].
  exists k3, k4, k6. split; [exact H3 |]. split; [exact H4 |].
  split; [exact H6 |].
  rewrite E12, E11, E10, E9, E8, E7, E6, E5, E4, E3, E2, E1.
  pick k1 H1. pick k2 H2. pick k5 H5. pick k7 H7. pick k8 H8. pick k9 H9.
  pick k10 H10. pick k11 H11. pick k12 H12.
  cbn [max_loan_multiplier initial_factors]. ring.
Qed.

(** X10: the final processing fee of a priced result is the base fee (the
    profile's [processing_fee], or 2% of the loan amount when absent) times
    0.8 for a salary account, 0.7 for an "excellent" loan history and 0.9 in
    the festive season; for a base fee >= 0 it lies between 50.4% and 100%
    of the base fee. *)
Theorem processing_fee_never_raised
    (customer_data : CustomerData) (loan_amount : Q) (requested_tenure : Z)
    (r : PricingResult) :
  calculate_dynamic_pricing customer_data loan_amount requested_tenure = Text r ->
  let base_processing_fee :=
    get (processing_fee customer_data)
      (resolve_loan_amount customer_data loan_amount * 0.02) in
  final_processing_fee r
  == base_processing_fee
     * ((if get (is_salary_account customer_data) false then 0.8 else 1)
        * (if String.eqb (get (loan_history_score customer_data) "good"%string)
               "excellent" then 0.7 else 1)
        * (if get (is_festive_season customer_data) false then 0.9 else 1))
  /\ (0 <= base_processing_fee ->
      0.504 * base_processing_fee <= final_processing_fee r
      /\ final_processing_fee r <= base_processing_fee).
Proof.
  intros H fee. apply pricing_text_inv in H.
  destruct H as (_ & _ & _ & _ & _ & _ & _ & Efee & _).
  fold fee in Efee. rewrite Efee.
  assert (P := fee_multiplier_product customer_data
                 (resolve_loan_amount customer_data loan_amount)
                 (resolve_tenure customer_data requested_tenure)).
  split; [rewrite P; reflexivity |].
  intro Hfee. rewrite P.
  destruct (get (is_salary_account customer_data) false),
    (String.eqb (get (loan_history_score customer_data) "good"%string) "excellent"),
    (get (is_festive_season customer_data) false); split; lra.
Qed.

(** X11: for a loan amount >= 0 the maximum eligible amount of a priced result
    lies between 0.72 and 2.184 times the loan amount. *)
Theorem eligible_amount_bounds
    (customer_data : CustomerData) (loan_amount : Q) (requested_tenure : Z)
    (r : PricingResult) :
  calculate_dynamic_pricing customer_data loan_amount requested_tenure = Text r ->
  let base_loan_amount := resolve_loan_amount customer_data loan_amount in
  0 <= base_loan_amount ->
  0.72 * base_loan_amount <= max_eligible_amount r
  /\ max_eligible_amount r <= 2.184 * base_loan_amount.
Proof.
  intros H amount Hpos. apply pricing_text_inv in H.
  destruct H as (_ & _ & _ & _ & _ & _ & Emax & _).
  fold amount in Emax. rewrite Emax.
  destruct (limit_multiplier_product customer_data amount
              (resolve_tenure customer_data requested_tenure))
    as (kb & kc & ki & Hb & Hc & Hi & E).
  rewrite E. pick kb Hb; pick kc Hc; pick ki Hi; split; lra.
Qed.

(** The remaining fields of a priced text. *)
Lemma pricing_text_fields
    (customer_data : CustomerData) (loan_amount : Q) (requested_tenure : Z)
    (r : PricingResult) :
  calculate_dynamic_pricing customer_data loan_amount requested_tenure = Text r ->
  let amount := resolve_loan_amount customer_data loan_amount in
  let months := resolve_tenure customer_data requested_tenure in
  let f := factors r in
  emi_formula amount (final_interest_rate r / 100 / 12) months
  = Some (final_emi r)
  /\ (exists base_emi,
        emi_formula amount (base_interest_rate r / 100 / 12) months
        = Some base_emi
        /\ monthly_difference r = final_emi r - base_emi)
  /\ total_difference r = monthly_difference r * inject_Z months
  /\ explanation_factors r
     = append_if (rate_adjustment f >? 0.1) RiskFactorsConsidered
         (append_if (get (monthly_income customer_data) 0 >=? 75000)
            HighIncomeBracket
            (append_if (get (is_salary_account customer_data) false)
               SalaryAccountHolder
               (append_if (get (credit_score customer_data) 750 >=? 750)
                  StrongCreditProfile
                  (append_if (rate_adjustment f <? - 0.1)
                     ExcellentBankingRelationship [])))).
Proof.
  intros H amount months f.
  assert (Hinv := pricing_text_inv _ _ _ _ H).
  destruct Hinv as (_ & _ & Ef & Eb & Er & _).
  unfold calculate_dynamic_pricing in H. fold amount months in H.
  destruct (negb (Py.truthy amount) || negb _); [discriminate |].
  destruct (emi_formula amount _ months) as [fe |] eqn:E1 in H;
    cbn [bind] in H; [| discriminate].
  destruct (emi_formula amount _ months) as [be |] eqn:E2 in H;
    cbn [bind] in H; [| discriminate].
  cbn [ret try_except] in H. injection H as <-.
  cbn [final_interest_rate final_emi base_interest_rate monthly_difference
       total_difference explanation_factors factors] in *.
  split; [exact E1 |]. split; [exists be; split; [exact E2 | reflexivity] |].
  split; reflexivity.
Qed.

Lemma in_append_if {A : Type} (c : bool) (x y : A) (xs : list A) :
  In y (append_if c x xs) <-> In y xs \/ (c = true /\ y = x).
Proof.
  unfold append_if. destruct c.
  - rewrite in_app_iff. cbn [In]. intuition congruence.
  - intuition congruence.
Qed.

(** X12: the explanation tags as the code derives them from the binary64
    running sum.  "Excellent banking relationship" is listed whenever the
    sum of the selected table entries is below -0.1 and never when it is
    above; "Risk factors considered" is listed whenever that sum is above
    0.1 and never when it is below; at a sum of exactly -0.1 or 0.1 the
    rounding of the running sum decides.  The other three tags follow their
    own conditions (score >= 750, salary account, income >= 75000); the
    first two never appear together and no tag appears twice. *)
Theorem explanation_tags
    (customer_data : CustomerData) (amount : Q) (months : Z) :
  let table_sum := rate_adjustment (pricing_factors customer_data amount months) in
  let tags := Binary64.explanation_factors customer_data amount months in
  (table_sum < - 0.1 -> In ExcellentBankingRelationship tags)
  /\ (- 0.1 < table_sum -> ~ In ExcellentBankingRelationship tags)
  /\ (0.1 < table_sum -> In RiskFactorsConsidered tags)
  /\ (table_sum < 0.1 -> ~ In RiskFactorsConsidered tags)
  /\ (In StrongCreditProfile tags
      <-> 750 <= get (credit_score customer_data) 750)
  /\ (In SalaryAccountHolder tags
      <-> get (is_salary_account customer_data) false = true)
  /\ (In HighIncomeBracket tags
      <-> 75000 <= get (monthly_income customer_data) 0)
  /\ ~ (In ExcellentBankingRelationship tags /\ In RiskFactorsConsidered tags)
  /\ NoDup tags.
Proof.
  intros table_sum tags.
  destruct (scoring_pass_ok customer_data amount months) as [h [Eh Hok]].
  apply state_ok_inv in Hok.
  destruct Hok as (_ & _ & _ & Hlow & Hlow' & Hhigh & Hhigh').
  fold table_sum in Eh.
  destruct (hundredths_lt h (-10) table_sum Eh) as [Hm1 Hm2].
  destruct (hundredths_lt h 10 table_sum Eh) as [Hp1 Hp2].
  assert (Em : (-10 # 100) == - 0.1) by reflexivity.
  assert (Ep : (10 # 100) == 0.1) by reflexivity.
  rewrite Em in Hm1, Hm2. rewrite Ep in Hp1, Hp2.
  unfold tags, Binary64.explanation_factors.
  set (running := Binary64.rate_adjustment customer_data amount months) in *.
  assert (HE : forall c1 c2 c3,
             In ExcellentBankingRelationship
               (append_if (0.1 <? running)%float RiskFactorsConsidered
                  (append_if c1 HighIncomeBracket
                     (append_if c2 SalaryAccountHolder
                        (append_if c3 StrongCreditProfile
                           (append_if (running <? - 0.1)%float
                              ExcellentBankingRelationship [])))))
             <-> (running <? -0.1)%float = true).
  { intros. rewrite !in_append_if. cbn [In]. intuition congruence. }
  assert (HR : forall c1 c2 c3,
             In RiskFactorsConsidered
               (append_if (0.1 <? running)%float RiskFactorsConsidered
                  (append_if c1 HighIncomeBracket
                     (append_if c2 SalaryAccountHolder
                        (append_if c3 StrongCreditProfile
                           (append_if (running <? - 0.1)%float
                              ExcellentBankingRelationship [])))))
             <-> (0.1 <? running)%float = true).
  { intros. rewrite !in_append_if. cbn [In]. intuition congruence. }
  split; [intro H; apply HE, Hlow, Hm1, H |].
  split; [intros H H'; apply HE in H'; rewrite (Hlow' (proj1 Hm2 H)) in H';
          discriminate H' |].
  split; [intro H; apply HR, Hhigh, Hp2, H |].
  split; [intros H H'; apply HR in H'; rewrite (Hhigh' (proj1 Hp1 H)) in H';
          discriminate H' |].
  split.
  { rewrite !in_append_if. cbn [In].
    destruct (ge_spec (get (credit_score customer_data) 750) 750);
      intuition congruence. }
  split.
  { rewrite !in_append_if. cbn [In].
    destruct (get (is_salary_account customer_data) false);
      intuition congruence. }
  split.
  { rewrite !in_append_if. cbn [In].
    destruct (ge_spec (get (monthly_income customer_data) 0) 75000);
      intuition congruence. }
  split.
  { rewrite HE, HR. intros [H1 H2].
    destruct (Z.lt_ge_cases (-10) h) as [Hh | Hh].
    - rewrite (Hlow' Hh) in H1. discriminate H1.
    - rewrite Hhigh' in H2 by lia. discriminate H2. }
  unfold append_if.
  destruct (0.1 <? running)%float, (_ >=? 75000),
    (get (is_salary_account customer_data) false), (_ >=? 750),
    (running <? - 0.1)%float; cbn [app];
    repeat (constructor; [cbn [In]; intuition discriminate |]); constructor.
Qed.


(** X14: the final EMI of a priced result is the EMI [calculate_emi] returns
    for the resolved loan amount, the final interest rate and the resolved
    tenure. *)
Theorem pricing_emi_matches_calculate_emi
    (customer_data : CustomerData) (loan_amount : Q) (requested_tenure : Z)
    (r : PricingResult) :
  calculate_dynamic_pricing customer_data loan_amount requested_tenure = Text r ->
  exists b,
    calculate_emi (resolve_loan_amount customer_data loan_amount)
      (final_interest_rate r) (base_tenure r) = Text b
    /\ eb_emi b = final_emi r.
Proof.
  intro H.
  assert (Hinv := pricing_text_inv _ _ _ _ H).
  destruct Hinv as (_ & _ & _ & _ & _ & Et & _).
  apply pricing_text_fields in H. destruct H as (E1 & _).
  rewrite calculate_emi_unfold, Et, E1. eexists. split; reflexivity.
Qed.

(** X15: a request with a positive amount and a positive tenure is priced as
    the profile with [loan_offer] and [tenure] replaced by them and an empty
    request; a request whose amount and tenure are both <= 0 (negative
    values included) is priced as the empty request. *)
Theorem request_overrides_profile
    (customer_data : CustomerData) (loan_amount : Q) (requested_tenure : Z) :
  (0 < loan_amount -> (0 < requested_tenure)%Z ->
   calculate_dynamic_pricing customer_data loan_amount requested_tenure
   = calculate_dynamic_pricing
       (with_offer customer_data loan_amount requested_tenure) 0 0)
  /\ (loan_amount <= 0 -> (requested_tenure <= 0)%Z ->
      calculate_dynamic_pricing customer_data loan_amount requested_tenure
      = calculate_dynamic_pricing customer_data 0 0).
Proof.
  split.
  - intros Ha Ht. unfold calculate_dynamic_pricing, resolve_loan_amount,
      resolve_tenure, pricing_factors.
    cbn [with_offer loan_offer interest_rate tenure processing_fee
         account_age_years is_salary_account avg_monthly_balance credit_score
         loan_history_score monthly_income employment_type job_stability_years
         is_festive_season has_existing_loans get].
    destruct (gt_spec loan_amount 0) as [_ | N]; [| tauto].
    destruct (Z.gtb_spec requested_tenure 0) as [_ | N]; [| lia].
    destruct (gt_spec 0 0) as [N | _]; [lra |].
    reflexivity.
  - intros Ha Ht. unfold calculate_dynamic_pricing, resolve_loan_amount,
      resolve_tenure.
    destruct (gt_spec loan_amount 0) as [N | _]; [lra |].
    destruct (Z.gtb_spec requested_tenure 0) as [N | _]; [lia |].
    destruct (gt_spec 0 0) as [N | _]; [lra |].
    reflexivity.
Qed.

(** ** get_rate_improvement_suggestions *)


Section Improvement.

Variable customer_data : CustomerData.

Let current_rate : Q := get (interest_rate customer_data) 12.0.
Let score : Q := get (credit_score customer_data) 750.
Let salary : bool := get (is_salary_account customer_data) false.
Let balance : Q := get (avg_monthly_balance customer_data) 0.
Let amount : Q := get (loan_offer customer_data) 0.
Let months : Z := get (tenure customer_data) 12%Z.

(** Nothing to improve on the three priced actions. *)
Let rate_optimal : Prop := 800 <= score /\ salary = true /\ 50000 <= balance.

(** The actions in the order the tool appends them. *)
Let actions : list Suggestion :=
  append_if (months >? 36)%Z (OptForShorterTenure months)
    (append_if (amount <? 1000000) ConsiderHigherLoanAmount
       (append_if (balance <? 50000) MaintainHigherBalance
          (append_if (negb salary) ConvertToSalaryAccount
             (append_if (score <? 800)
                (ImproveCreditScore (score + 50)
                   (if score >=? 750 then 0.5 else 0.25)) [])))).

Lemma improvement_cases :
  (rate_optimal /\ 1000000 <= amount /\ (months <= 36)%Z /\ actions = []
   /\ get_rate_improvement_suggestions customer_data
      = Text (AlreadyBestRates current_rate))
  \/ (rate_optimal /\ (amount < 1000000 \/ (36 < months)%Z)
      /\ get_rate_improvement_suggestions customer_data
         = Text (ImprovementSuggestions actions))
  \/ (~ rate_optimal
      /\ exists potential_savings,
           potential_savings
           == (if score <? 800 then if score >=? 750 then 0.5 else 0.25 else 0)
              + (if salary then 0 else 0.3)
              + (if balance <? 50000 then 0.2 else 0)
           /\ 0.2 <= potential_savings /\ potential_savings <= 1.0
           /\ get_rate_improvement_suggestions customer_data
              = try_except
                  (let new_rate :=
                     Py.max 8.0 (current_rate - potential_savings) in
                   current_emi <-
                     emi_formula amount (current_rate / 100 / 12) months ;;
                   new_emi <- emi_formula amount (new_rate / 100 / 12) months ;;
                   ret (Text (ImprovementRoadmap current_rate new_rate
                                potential_savings (current_emi - new_emi) months
                                ((current_emi - new_emi) * inject_Z months)
                                actions)))
                  unable_suggestions).
Proof.
  unfold get_rate_improvement_suggestions, rate_optimal, actions, Py.min.
  fold current_rate score salary balance amount months.
  destruct (lt_spec score 800) as [Hs | Hs];
    destruct salary;
    destruct (lt_spec balance 50000) as [Hb | Hb];
    destruct (lt_spec amount 1000000) as [Ha | Ha];
    destruct (Z.gtb_spec months 36) as [Ht | Ht];
    cbn [negb append_if app is_empty];
    try (destruct (lt_spec (score + 50) 850) as [Hcap | Hcap];
         [| exfalso; apply Hcap; lra]);
    try (destruct (ge_spec (score + 50) 800); destruct (ge_spec score 750);
         try (exfalso; lra));
    match goal with
    | |- context [if ?x >? 0 then _ else _] =>
        destruct (gt_spec x 0) as [Hps | Hps]; [| try (exfalso; apply Hps; lra)]
    | _ => idtac
    end.
  all: try (right; right; split; [intros (? & ? & ?); first [lra | discriminate] |];
            eexists; split; [| split; [| split; [| reflexivity]]]; lra).
  all: try (left; repeat split; first [lra | lia | reflexivity]).
  all: try (right; left; split; [repeat split; lra |];
            split; [first [left; lra | right; lia] | reflexivity]).
Qed.

(** The roadmap branch: what the wrapped computation returns. *)
Lemma roadmap_outcome (potential_savings : Q) :
  0.2 <= potential_savings ->
  let new_rate := Py.max 8.0 (current_rate - potential_savings) in
  let outcome :=
    try_except
      (current_emi <- emi_formula amount (current_rate / 100 / 12) months ;;
       new_emi <- emi_formula amount (new_rate / 100 / 12) months ;;
       ret (Text (ImprovementRoadmap current_rate new_rate
                    potential_savings (current_emi - new_emi) months
                    ((current_emi - new_emi) * inject_Z months) actions)))
      unable_suggestions in
  (emi_formula amount (current_rate / 100 / 12) months = None
   /\ outcome = Message unable_suggestions)
  \/ (exists current_emi new_emi,
        emi_formula amount (current_rate / 100 / 12) months = Some current_emi
        /\ emi_formula amount (new_rate / 100 / 12) months = Some new_emi
        /\ outcome
           = Text (ImprovementRoadmap current_rate new_rate potential_savings
                     (current_emi - new_emi) months
                     ((current_emi - new_emi) * inject_Z months) actions)).
Proof.
  intros Hps new_rate outcome. unfold outcome.
  destruct (emi_formula amount (current_rate / 100 / 12) months)
    as [ce |] eqn:E1; cbn [bind].
  - right. assert (Hm : months <> 0%Z).
    { intros Hz. rewrite Hz in E1.
      assert (N : emi_formula amount (current_rate / 100 / 12) 0 = None).
      { apply emi_formula_raises. right. reflexivity. }
      congruence. }
    assert (H8 : 8 <= new_rate).
    { destruct (max_spec 8.0 (current_rate - potential_savings)) as [H _].
      unfold new_rate. lra. }
    assert (Em := monthly_rate_eq new_rate).
    rewrite (emi_formula_defined amount (new_rate / 100 / 12) months)
      by (try lra; try exact Hm; intro; lra).
    do 2 eexists. repeat split.
  - left. split; reflexivity.
Qed.

End Improvement.

Ltac improvement_facts cd :=
  let Hopt := fresh "Hopt" in
  destruct (improvement_cases cd)
    as [(Hopt & Ha & Ht & Hact & Hres)
       | [(Hopt & Hmore & Hres) | (Hopt & ps & Hsum & Hlo & Hhi & Hres)]];
  cbv zeta in Hres.




Ltac in_cases H :=
  rewrite !in_append_if in H; cbn [In] in H;
  repeat (destruct H as [H | H]); try contradiction;
  destruct H as [? H]; try discriminate H.

(** X20: the actions listed by the improvement tool are exactly those whose
    condition holds, each once; the credit-score action targets [score + 50]
    (the cap of 850 is never reached, since it only applies below 800) and
    announces 0.5 exactly when the score is 750 or more, 0.25 otherwise. *)
Theorem suggestion_list (customer_data : CustomerData) (text : ImprovementText) :
  get_rate_improvement_suggestions customer_data = Text text ->
  let score := get (credit_score customer_data) 750 in
  let months := get (tenure customer_data) 12%Z in
  let listed := suggestions_of text in
  (forall target reduction,
     In (ImproveCreditScore target reduction) listed
     <-> score < 800 /\ target = score + 50
         /\ reduction = (if score >=? 750 then 0.5 else 0.25))
  /\ (In ConvertToSalaryAccount listed
      <-> get (is_salary_account customer_data) false = false)
  /\ (In MaintainHigherBalance listed
      <-> get (avg_monthly_balance customer_data) 0 < 50000)
  /\ (In ConsiderHigherLoanAmount listed
      <-> get (loan_offer customer_data) 0 < 1000000)
  /\ (forall n, In (OptForShorterTenure n) listed
                <-> (36 < months)%Z /\ n = months)
  /\ NoDup listed.
Proof.
  intro H. cbv zeta.
  assert (Hlist : suggestions_of text
            = append_if (get (tenure customer_data) 12 >? 36)%Z
                (OptForShorterTenure (get (tenure customer_data) 12%Z))
                (append_if (get (loan_offer customer_data) 0 <? 1000000)
                   ConsiderHigherLoanAmount
                   (append_if (get (avg_monthly_balance customer_data) 0 <? 50000)
                      MaintainHigherBalance
                      (append_if (negb (get (is_salary_account customer_data) false))
                         ConvertToSalaryAccount
                         (append_if (get (credit_score customer_data) 750 <? 800)
                            (ImproveCreditScore
                               (get (credit_score customer_data) 750 + 50)
                               (if get (credit_score customer_data) 750 >=? 750
                                then 0.5 else 0.25)) []))))).
  { improvement_facts customer_data.
    - rewrite Hres in H. injection H as <-. symmetry. exact Hact.
    - rewrite Hres in H. injection H as <-. reflexivity.
    - destruct (roadmap_outcome customer_data ps Hlo)
        as [[_ Hout] | (ce & ne & E1 & E2 & Hout)];
        cbv zeta in Hout; rewrite Hout in Hres; rewrite Hres in H;
        [discriminate H |].
      injection H as <-. reflexivity. }
  rewrite Hlist. clear Hlist H.
  set (score := get (credit_score customer_data) 750).
  set (months := get (tenure customer_data) 12%Z).
  split; [| split; [| split; [| split; [| split]]]].
  - intros target reduction. split.
    + intro H. in_cases H. injection H as -> ->.
      destruct (lt_spec score 800); [tauto | discriminate].
    + intros (Hlt & -> & ->). rewrite !in_append_if. cbn [In].
      left. left. left. left. right. split; [| reflexivity].
      destruct (lt_spec score 800); [reflexivity | tauto].
  - split.
    + intro H. in_cases H.
      destruct (get (is_salary_account customer_data) false);
        [discriminate | reflexivity].
    + intro E. rewrite !in_append_if. cbn [In]. rewrite E.
      left. left. left. right. split; reflexivity.
  - split.
    + intro H. in_cases H.
      destruct (lt_spec (get (avg_monthly_balance customer_data) 0) 50000);
        [assumption | discriminate].
    + intro Hlt. rewrite !in_append_if. cbn [In].
      left. left. right. split; [| reflexivity].
      destruct (lt_spec (get (avg_monthly_balance customer_data) 0) 50000);
        [reflexivity | tauto].
  - split.
    + intro H. in_cases H.
      destruct (lt_spec (get (loan_offer customer_data) 0) 1000000);
        [assumption | discriminate].
    + intro Hlt. rewrite !in_append_if. cbn [In].
      left. right. split; [| reflexivity].
      destruct (lt_spec (get (loan_offer customer_data) 0) 1000000);
        [reflexivity | tauto].
  - intro n. split.
    + intro H. in_cases H. injection H as ->.
      destruct (Z.gtb_spec months 36); [split; [lia | reflexivity] | discriminate].
    + intros [Hgt ->]. rewrite !in_append_if. cbn [In]. right.
      split; [| reflexivity]. destruct (Z.gtb_spec months 36); [reflexivity | lia].
  - unfold append_if.
    destruct (months >? 36)%Z, (_ <? 1000000), (_ <? 50000),
      (negb (get (is_salary_account customer_data) false)), (score <? 800);
      cbn [app];
      repeat (constructor; [cbn [In]; intuition discriminate |]); constructor.
Qed.

(** What the improvement tool lists. *)
Lemma listed_suggestions (customer_data : CustomerData) (text : ImprovementText) :
  get_rate_improvement_suggestions customer_data = Text text ->
  suggestions_of text
  = append_if (get (tenure customer_data) 12 >? 36)%Z
      (OptForShorterTenure (get (tenure customer_data) 12%Z))
      (append_if (get (loan_offer customer_data) 0 <? 1000000)
         ConsiderHigherLoanAmount
         (append_if (get (avg_monthly_balance customer_data) 0 <? 50000)
            MaintainHigherBalance
            (append_if (negb (get (is_salary_account customer_data) false))
               ConvertToSalaryAccount
               (append_if (get (credit_score customer_data) 750 <? 800)
                  (ImproveCreditScore
                     (get (credit_score customer_data) 750 + 50)
                     (if get (credit_score customer_data) 750 >=? 750
                      then 0.5 else 0.25)) [])))).
Proof.
  intro H. improvement_facts customer_data.
  - rewrite Hres in H. injection H as <-. symmetry. exact Hact.
  - rewrite Hres in H. injection H as <-. reflexivity.
  - destruct (roadmap_outcome customer_data ps Hlo)
      as [[_ Hout] | (ce & ne & E1 & E2 & Hout)];
      cbv zeta in Hout; rewrite Hout in Hres; rewrite Hres in H;
      [discriminate H |].
    injection H as <-. reflexivity.
Qed.

(** The table sum with and without a salary account. *)
Lemma salary_account_table_sum
    (customer_data : CustomerData) (amount : Q) (months : Z) :
  rate_adjustment
    (pricing_factors (with_is_salary_account customer_data true) amount months)
  == rate_adjustment
       (pricing_factors (with_is_salary_account customer_data false) amount
          months) - 0.3.
Proof.
  unfold pricing_factors.
  cbn [with_is_salary_account account_age_years is_salary_account
       avg_monthly_balance credit_score loan_history_score monthly_income
       employment_type job_stability_years is_festive_season
       has_existing_loans get].
  open_shifts customer_data amount months.
  destruct (credit_score_shift (get (credit_score customer_data) 750))
    as [d4 [B4 E4]].
  rewrite !E12, !E11, !E10, !E9, !E8, !E7, !E6, !E5, !E4, !E3.
  cbn [salary_account_factor rate_adjustment fee_mul rate_sub]. lra.
Qed.

(** X16: the salary-account action of the improvement tool and what it does
    to the pricing.  The tool lists "Convert to Salary Account" for a
    profile without a salary account and not for one with it.  With
    everything else fixed, turning [is_salary_account] from false to true
    lowers the sum of the selected table entries by exactly 0.3, the
    binary64 running sum by 0.3 up to 2e-15, multiplies the fee multiplier
    by 0.8 (in exact arithmetic) and leaves the limit multiplier
    unchanged. *)
Theorem salary_account_conversion
    (customer_data : CustomerData) (amount : Q) (months : Z) :
  let before := with_is_salary_account customer_data false in
  let after := with_is_salary_account customer_data true in
  (forall text, get_rate_improvement_suggestions before = Text text ->
                In ConvertToSalaryAccount (suggestions_of text))
  /\ (forall text, get_rate_improvement_suggestions after = Text text ->
                   ~ In ConvertToSalaryAccount (suggestions_of text))
  /\ rate_adjustment (pricing_factors after amount months)
     == rate_adjustment (pricing_factors before amount months) - 0.3
  /\ Qabs (Binary64.value (Binary64.rate_adjustment after amount months)
           - (Binary64.value (Binary64.rate_adjustment before amount months)
              - 0.3))
     <= 2 # 1000000000000000
  /\ processing_fee_multiplier (pricing_factors after amount months)
     == processing_fee_multiplier (pricing_factors before amount months) * 0.8
  /\ max_loan_multiplier (pricing_factors after amount months)
     == max_loan_multiplier (pricing_factors before amount months).
Proof.
  cbv zeta.
  split; [| split; [| split; [| split; [| split]]]].
  - intros text H. rewrite (listed_suggestions _ _ H).
    cbn [with_is_salary_account is_salary_account get negb].
    rewrite !in_append_if. cbn [In]. left. left. left. right.
    split; reflexivity.
  - intros text H. rewrite (listed_suggestions _ _ H).
    cbn [with_is_salary_account is_salary_account get negb].
    rewrite !in_append_if. cbn [In]. intuition discriminate.
  - apply salary_account_table_sum.
  - assert (Ha := rate_adjustment_close
                    (with_is_salary_account customer_data true) amount months).
    assert (Hb := rate_adjustment_close
                    (with_is_salary_account customer_data false) amount months).
    assert (E := salary_account_table_sum customer_data amount months).
    apply Qabs_Qle_condition in Ha. apply Qabs_Qle_condition in Hb.
    apply Qabs_Qle_condition. split; lra.
  - rewrite !fee_multiplier_product.
    cbn [with_is_salary_account is_salary_account loan_history_score
         is_festive_season get].
    ring.
  - unfold pricing_factors.
    cbn [with_is_salary_account account_age_years is_salary_account
         avg_monthly_balance credit_score loan_history_score monthly_income
         employment_type job_stability_years is_festive_season
         has_existing_loans get].
    destruct (balance_limit (get (avg_monthly_balance customer_data) 0))
      as [k3 [_ E3]].
    destruct (credit_score_limit (get (credit_score customer_data) 750))
      as [k4 [_ E4]].
    destruct (loan_history_limit
                (get (loan_history_score customer_data) "good"%string))
      as [k5 [_ E5]].
    destruct (income_limit (get (monthly_income customer_data) 0))
      as [k6 [_ E6]].
    destruct (employment_limit
                (get (employment_type customer_data) "salaried"%string))
      as [k7 [_ E7]].
    destruct (job_stability_limit (get (job_stability_years customer_data) 2))
      as [k8 [_ E8]].
    destruct (loan_amount_limit amount) as [k9 [_ E9]].
    destruct (tenure_limit months) as [k10 [_ E10]].
    destruct (festive_limit (get (is_festive_season customer_data) false))
      as [k11 [_ E11]].
    destruct (existing_loans_limit
                (get (has_existing_loans customer_data) false))
      as [k12 [_ E12]].
    rewrite !E12, !E11, !E10, !E9, !E8, !E7, !E6, !E5, !E4, !E3.
    cbn [salary_account_factor max_loan_multiplier fee_mul rate_sub].
    reflexivity.
Qed.

(** ** format_currency and format_percentage *)

Lemma round_half_even_near (x : Q) :
  Qabs (inject_Z (round_half_even x) - x) <= 1 # 2.
Proof.
  unfold round_half_even.
  assert (Hlo := Qfloor_le x). assert (Hhi := Qlt_floor x).
  rewrite inject_Z_plus in Hhi. change (inject_Z 1) with 1 in Hhi.
  set (low := Qfloor x) in *.
  apply Qabs_Qle_condition.
  destruct (lt_spec (2 * (x - inject_Z low)) 1) as [H1 | H1].
  - split; lra.
  - destruct (gt_spec (2 * (x - inject_Z low)) 1) as [H2 | H2].
    + rewrite inject_Z_plus. change (inject_Z 1) with 1. split; lra.
    + destruct (Z.even low).
      * split; lra.
      * rewrite inject_Z_plus. change (inject_Z 1) with 1. split; lra.
Qed.

Lemma round_half_even_nonneg (x : Q) : 0 <= x -> (0 <= round_half_even x)%Z.
Proof.
  intro Hx. unfold round_half_even.
  assert (H0 : (0 <= Qfloor x)%Z).
  { change 0%Z with (Qfloor 0). apply Qfloor_resp_le. exact Hx. }
  destruct (_ <? 1); [exact H0 |].
  destruct (_ >? 1); [lia |]. destruct (Z.even _); lia.
Qed.

Lemma round_half_even_monotone (x y : Q) :
  x <= y -> (round_half_even x <= round_half_even y)%Z.
Proof.
  intro Hxy. 
  assert (Hf := Qfloor_resp_le x y Hxy).
  unfold round_half_even.
  assert (Hxl := Qfloor_le x). assert (Hxh := Qlt_floor x).
  assert (Hyl := Qfloor_le y). assert (Hyh := Qlt_floor y).
  rewrite inject_Z_plus in Hxh, Hyh. change (inject_Z 1) with 1 in Hxh, Hyh.
  destruct (Z.eq_dec (Qfloor x) (Qfloor y)) as [E | N].
  - rewrite <- E in *. set (low := Qfloor x) in *.
    destruct (lt_spec (2 * (x - inject_Z low)) 1);
      destruct (lt_spec (2 * (y - inject_Z low)) 1); try lia; try lra.
    + destruct (gt_spec (2 * (y - inject_Z low)) 1); [lia |].
      destruct (Z.even low); lia.
    + destruct (gt_spec (2 * (x - inject_Z low)) 1);
        destruct (gt_spec (2 * (y - inject_Z low)) 1); try lia; try lra.
      destruct (Z.even low); lia.
  - assert (Hlt : (Qfloor x + 1 <= Qfloor y)%Z) by lia.
    destruct (_ <? 1); destruct (_ <? 1); try lia;
      repeat match goal with
      | |- context [if ?c then _ else _] => destruct c
      end; lia.
Qed.

Lemma strip_prefix_app (prefix s : string) :
  strip_prefix prefix (prefix ++ s) = Some s.
Proof.
  induction prefix as [| c prefix IH]; cbn; [reflexivity |].
  rewrite Ascii.eqb_refl. exact IH.
Qed.

Lemma uint_chars_digits (d : Decimal.uint) :
  Forall (fun c => is_digit c = true)
    (list_ascii_of_string (NilEmpty.string_of_uint d)).
Proof.
  induction d; cbn [NilEmpty.string_of_uint list_ascii_of_string];
    constructor; try reflexivity; assumption.
Qed.

Lemma to_uint_nonnil (n : N) : N.to_uint n <> Decimal.Nil.
Proof.
  destruct n as [| p]; [discriminate |]. apply DecimalPos.Unsigned.to_uint_nonnil.
Qed.

Lemma digits_chars (n : N) :
  Forall (fun c => is_digit c = true) (list_ascii_of_string (digits n))
  /\ list_ascii_of_string (digits n) <> [].
Proof.
  unfold digits. assert (Hn := to_uint_nonnil n).
  destruct (N.to_uint n) as [| u | u | u | u | u | u | u | u | u | u];
    [contradiction | ..];
    (split; [apply (uint_chars_digits (_ u)) | cbn; discriminate]).
Qed.

Lemma read_digits_digits (n : N) :
  read_digits (list_ascii_of_string (digits n)) = Some n.
Proof.
  unfold read_digits, digits. rewrite string_of_list_ascii_of_string.
  rewrite NilZero.usu by apply to_uint_nonnil.
  cbn [option_map]. rewrite DecimalN.Unsigned.of_to. reflexivity.
Qed.

Lemma digit_not_comma (c : ascii) : is_digit c = true -> is_comma c = false.
Proof.
  unfold is_digit, is_comma. intro H.
  destruct (Ascii.eqb_spec c ","); [subst c; discriminate H | reflexivity].
Qed.

Lemma ungroup_thousands_rev (cs : list ascii) (run : nat) :
  Forall (fun c => is_digit c = true) cs ->
  filter (fun c => negb (is_comma c)) (group_thousands_rev cs run) = cs.
Proof.
  intro H. revert run. induction H as [| c cs Hc _ IH]; intro run;
    cbn [group_thousands_rev]; [reflexivity |].
  destruct (Nat.eqb run 3); cbn [filter];
    rewrite ?(digit_not_comma c Hc); cbn [negb is_comma];
    try (change (is_comma ",") with true; cbn [negb]);
    rewrite IH; reflexivity.
Qed.

Lemma ungroup_thousands (n : N) :
  filter (fun c => negb (is_comma c))
    (list_ascii_of_string (group_thousands (digits n)))
  = list_ascii_of_string (digits n).
Proof.
  unfold group_thousands. rewrite list_ascii_of_string_of_list_ascii.
  rewrite filter_rev, ungroup_thousands_rev, rev_involutive; [reflexivity |].
  apply Forall_rev. apply digits_chars.
Qed.

(** The grouped digits start with a digit. *)
Lemma group_thousands_rev_last (cs : list ascii) (run : nat) :
  Forall (fun c => is_digit c = true) cs -> cs <> [] ->
  exists c rest, rev (group_thousands_rev cs run) = c :: rest
                 /\ is_digit c = true.
Proof.
  intros H. revert run. induction H as [| c cs Hc Hcs IH]; intros run Hne;
    [contradiction |].
  cbn [group_thousands_rev].
  destruct cs as [| c' cs'].
  - cbn [group_thousands_rev]. destruct (Nat.eqb run 3); cbn [rev app];
      exists c; eexists; split; try reflexivity; assumption.
  - destruct (Nat.eqb run 3); cbn [rev].
    + destruct (IH 1%nat) as [h [t [E Hh]]]; [discriminate |].
      rewrite E. cbn [app]. exists h. eexists. split; [reflexivity | exact Hh].
    + destruct (IH (S run)) as [h [t [E Hh]]]; [discriminate |].
      rewrite E. cbn [app]. exists h. eexists. split; [reflexivity | exact Hh].
Qed.

Lemma group_thousands_head (n : N) :
  exists c rest, group_thousands (digits n) = String c rest
                 /\ is_digit c = true.
Proof.
  destruct (digits_chars n) as [Hd Hne]. unfold group_thousands.
  destruct (group_thousands_rev_last (rev (list_ascii_of_string (digits n))) 0)
    as [c [rest [E Hc]]].
  - apply Forall_rev. exact Hd.
  - intro H. apply Hne. rewrite <- (rev_involutive (list_ascii_of_string _)), H.
    reflexivity.
  - rewrite E. cbn [string_of_list_ascii]. do 2 eexists. split; [reflexivity | exact Hc].
Qed.

Lemma digits_head (n : N) :
  exists c rest, digits n = String c rest /\ is_digit c = true.
Proof.
  destruct (digits_chars n) as [Hd Hne].
  destruct (digits n) as [| c rest]; [contradiction Hne; reflexivity |].
  cbn [list_ascii_of_string] in Hd. inversion Hd; subst.
  do 2 eexists. split; [reflexivity | assumption].
Qed.

Lemma split_sign_sign_of (x : Q) (c : ascii) (rest : string) :
  is_digit c = true ->
  split_sign (sign_of x ++ String c rest) = (x <? 0, String c rest).
Proof.
  intro Hc. unfold sign_of. destruct (x <? 0); cbn [append split_sign].
  - reflexivity.
  - destruct (Ascii.eqb_spec c "-"); [subst c; discriminate Hc | reflexivity].
Qed.

(** Two-digit and one-digit groups read back. *)
Lemma two_digits_read (n : N) :
  (n < 100)%N ->
  exists c1 c2, two_digits n = String c1 (String c2 EmptyString)
                /\ read_digits [c1; c2] = Some n.
Proof.
  intro Hn.
  assert (Hall : forallb
            (fun k => match list_ascii_of_string (two_digits (N.of_nat k)) with
                      | [c1; c2] =>
                          match read_digits [c1; c2] with
                          | Some m => N.eqb m (N.of_nat k)
                          | None => false
                          end
                      | _ => false
                      end) (seq 0 100) = true) by (vm_compute; reflexivity).
  rewrite forallb_forall in Hall.
  specialize (Hall (N.to_nat n)).
  rewrite N2Nat.id in Hall.
  assert (Hin : In (N.to_nat n) (seq 0 100)) by (apply in_seq; lia).
  specialize (Hall Hin).
  destruct (two_digits n) as [| c1 [| c2 [| c3 s]]]; cbn in Hall;
    try discriminate Hall.
  exists c1, c2. split; [reflexivity |].
  destruct (read_digits [c1; c2]) as [m |]; [| discriminate Hall].
  apply N.eqb_eq in Hall. congruence.
Qed.

Lemma one_digit_read (n : N) :
  (n < 10)%N ->
  exists c, digits n = String c EmptyString /\ read_digits [c] = Some n.
Proof.
  intro Hn.
  assert (Hall : forallb
            (fun k => match list_ascii_of_string (digits (N.of_nat k)) with
                      | [c] =>
                          match read_digits [c] with
                          | Some m => N.eqb m (N.of_nat k)
                          | None => false
                          end
                      | _ => false
                      end) (seq 0 10) = true) by (vm_compute; reflexivity).
  rewrite forallb_forall in Hall.
  specialize (Hall (N.to_nat n)).
  rewrite N2Nat.id in Hall.
  assert (Hin : In (N.to_nat n) (seq 0 10)) by (apply in_seq; lia).
  specialize (Hall Hin).
  destruct (digits n) as [| c [| c2 s]]; cbn in Hall; try discriminate Hall.
  exists c. split; [reflexivity |].
  destruct (read_digits [c]) as [m |]; [| discriminate Hall].
  apply N.eqb_eq in Hall. congruence.
Qed.

Lemma list_ascii_of_string_app (s1 s2 : string) :
  list_ascii_of_string (s1 ++ s2)
  = (list_ascii_of_string s1 ++ list_ascii_of_string s2)%list.
Proof.
  induction s1 as [| c s1 IH]; cbn; [reflexivity | rewrite IH; reflexivity].
Qed.

(** X21: a formatted currency string reads back as the sign of the amount and
    its magnitude rounded to hundredths: what is shown differs from the
    magnitude by at most 0.005. *)
Theorem format_currency_reads_back (amount : Q) :
  let cents := Z.to_N (round_half_even (Qabs amount * 100)) in
  read_currency (format_currency amount) = Some (amount <? 0, cents)
  /\ Qabs (inject_Z (Z.of_N cents) / 100 - Qabs amount) <= 1 # 200.
Proof.
  intro cents. split.
  - unfold format_currency, read_currency. fold cents.
    rewrite strip_prefix_app.
    destruct (group_thousands_head (cents / 100)) as [c [rest [EG Hc]]].
    assert (Hf : (cents mod 100 < 100)%N) by (apply N.mod_lt; discriminate).
    destruct (two_digits_read _ Hf) as [c1 [c2 [ET Hread]]].
    rewrite EG, ET. cbn [append].
    rewrite (split_sign_sign_of amount c _ Hc).
    change (String c (rest ++ String "." (String c1 (String c2 EmptyString))))%string
      with (String c rest ++ String "." (String c1 (String c2 EmptyString)))%string.
    rewrite <- EG, list_ascii_of_string_app.
    cbn [list_ascii_of_string]. rewrite rev_app_distr. cbn [rev app].
    rewrite Ascii.eqb_refl, rev_involutive, ungroup_thousands,
      read_digits_digits, Hread.
    f_equal. f_equal. rewrite N.mul_comm.
    symmetry. apply N.div_mod'.
  - assert (Hx : 0 <= Qabs amount * 100).
    { assert (H := Qabs_nonneg amount). lra. }
    assert (Hr := round_half_even_nonneg _ Hx).
    assert (Hn := round_half_even_near (Qabs amount * 100)).
    unfold cents. rewrite Z2N.id by exact Hr.
    set (r := inject_Z (round_half_even (Qabs amount * 100))) in *.
    apply Qabs_Qle_condition in Hn. apply Qabs_Qle_condition.
    assert (E : r / 100 - Qabs amount == (r - Qabs amount * 100) / 100) by field.
    rewrite E. split.
    + apply Qle_shift_div_l; lra.
    + apply Qle_shift_div_r; lra.
Qed.

(** What a formatted percentage reads back as. *)
Lemma format_percentage_read (value : Q) :
  read_percentage (format_percentage value)
  = Some (value <? 0, Z.to_N (round_half_even (Qabs value * 10))).
Proof.
  unfold format_percentage, read_percentage.
  set (tenths := Z.to_N (round_half_even (Qabs value * 10))).
  destruct (digits_head (tenths / 10)) as [c [rest [ED Hc]]].
  assert (Hf : (tenths mod 10 < 10)%N) by (apply N.mod_lt; discriminate).
  destruct (one_digit_read _ Hf) as [t [ET Hread]].
  rewrite ED, ET. cbn [append].
  rewrite (split_sign_sign_of value c _ Hc).
  change (String c (rest ++ String "." (String t (String "%" EmptyString))))%string
    with (String c rest ++ String "." (String t (String "%" EmptyString)))%string.
  rewrite <- ED, list_ascii_of_string_app.
  cbn [list_ascii_of_string]. rewrite rev_app_distr. cbn [rev app].
  rewrite !Ascii.eqb_refl. cbn [andb].
  rewrite rev_involutive, read_digits_digits, Hread.
  f_equal. f_equal. rewrite N.mul_comm.
  symmetry. apply N.div_mod'.
Qed.

(** X22: a formatted percentage string reads back as the sign of the value and
    its magnitude rounded to tenths: what is shown differs from the magnitude
    by at most 0.05. *)
Theorem format_percentage_reads_back (value : Q) :
  let tenths := Z.to_N (round_half_even (Qabs value * 10)) in
  read_percentage (format_percentage value) = Some (value <? 0, tenths)
  /\ Qabs (inject_Z (Z.of_N tenths) / 10 - Qabs value) <= 1 # 20.
Proof.
  intro tenths. split; [apply format_percentage_read |].
  assert (Hx : 0 <= Qabs value * 10).
  { assert (H := Qabs_nonneg value). lra. }
  assert (Hr := round_half_even_nonneg _ Hx).
  assert (Hn := round_half_even_near (Qabs value * 10)).
  unfold tenths. rewrite Z2N.id by exact Hr.
  set (r := inject_Z (round_half_even (Qabs value * 10))) in *.
  apply Qabs_Qle_condition in Hn. apply Qabs_Qle_condition.
  assert (E : r / 10 - Qabs value == (r - Qabs value * 10) / 10) by field.
  rewrite E. split.
  - apply Qle_shift_div_l; lra.
  - apply Qle_shift_div_r; lra.
Qed.

(** X23: the final interest rate of a priced result is displayed without a
    sign as a number of tenths between 80 and 180, that is between "8.0%"
    and "18.0%". *)
Theorem displayed_rate_within_bounds
    (customer_data : CustomerData) (loan_amount : Q) (requested_tenure : Z)
    (r : PricingResult) :
  calculate_dynamic_pricing customer_data loan_amount requested_tenure = Text r ->
  exists tenths,
    read_percentage (format_percentage (final_interest_rate r))
    = Some (false, tenths)
    /\ (80 <= tenths)%N /\ (tenths <= 180)%N.
Proof.
  intro H. apply pricing_text_inv in H.
  destruct H as (_ & _ & _ & _ & Er & _).
  assert (Hcl := final_rate_clamped customer_data loan_amount requested_tenure).
  rewrite <- Er in Hcl. destruct Hcl as [Hlo Hhi].
  assert (Hread := format_percentage_read (final_interest_rate r)).
  destruct (lt_spec (final_interest_rate r) 0) as [Hneg | _]; [lra |].
  eexists. split; [exact Hread |].
  assert (Habs : Qabs (final_interest_rate r) == final_interest_rate r).
  { apply Qabs_pos. lra. }
  assert (L := round_half_even_monotone 80 (Qabs (final_interest_rate r) * 10)).
  assert (U := round_half_even_monotone (Qabs (final_interest_rate r) * 10) 180).
  change (round_half_even 80) with 80%Z in L.
  change (round_half_even 180) with 180%Z in U.
  assert (HL : (80 <= round_half_even (Qabs (final_interest_rate r) * 10))%Z)
    by (apply L; lra).
  assert (HU : (round_half_even (Qabs (final_interest_rate r) * 10) <= 180)%Z)
    by (apply U; lra).
  split; apply N2Z.inj_le; rewrite Z2N.id; lia.
Qed.

(** ** Concrete instances *)


Lemma savings_text_shape_witness :
  exists blocks,
    calculate_loan_savings example_profile 100000 = Text blocks
    /\ exists current_emi rest,
         blocks = CurrentLoanStructure current_emi
                    (current_emi * inject_Z 24 - 500000)
                    (current_emi * inject_Z 24) :: rest.
Proof.
  eexists. split; [vm_compute; reflexivity |].
  destruct (savings_text_shape example_profile 100000 _
              ltac:(vm_compute; reflexivity)) as [e [rest [E _]]].
  exists e, rest. exact E.
Defined.

Lemma savings_current_matches_calculate_emi_witness :
  exists blocks,
    calculate_loan_savings example_profile 0 = Text blocks
    /\ exists b rest,
         calculate_emi 500000 10.5 24 = Text b
         /\ blocks = CurrentLoanStructure (eb_emi b) (eb_total_interest b)
                       (eb_total_amount b) :: rest.
Proof.
  eexists. split; [vm_compute; reflexivity |].
  apply (savings_current_matches_calculate_emi example_profile 0).
  vm_compute. reflexivity.
Defined.

Lemma processing_fee_never_raised_witness :
  exists r, calculate_dynamic_pricing example_profile 0 0 = Text r
    /\ final_processing_fee r <= 500000 * 0.02.
Proof.
  eexists. split; [vm_compute; reflexivity |].
  apply (processing_fee_never_raised example_profile 0 0);
    [vm_compute; reflexivity | vm_compute; discriminate].
Defined.

Lemma eligible_amount_bounds_witness :
  exists r, calculate_dynamic_pricing example_profile 0 0 = Text r
    /\ 0.72 * 500000 <= max_eligible_amount r
    /\ max_eligible_amount r <= 2.184 * 500000.
Proof.
  eexists. split; [vm_compute; reflexivity |].
  apply (eligible_amount_bounds example_profile 0 0);
    [vm_compute; reflexivity | vm_compute; discriminate].
Defined.


Lemma pricing_emi_matches_calculate_emi_witness :
  exists r, calculate_dynamic_pricing example_profile 0 0 = Text r
    /\ exists b, calculate_emi 500000 (final_interest_rate r) (base_tenure r)
                 = Text b
                 /\ eb_emi b = final_emi r.
Proof.
  eexists. split; [vm_compute; reflexivity |].
  apply (pricing_emi_matches_calculate_emi example_profile 0 0).
  vm_compute. reflexivity.
Defined.

Lemma request_overrides_profile_witness :
  calculate_dynamic_pricing example_profile 300000 36
  = calculate_dynamic_pricing (with_offer example_profile 300000 36) 0 0.
Proof.
  apply (request_overrides_profile example_profile 300000 36); reflexivity.
Defined.


Lemma suggestion_list_witness :
  exists text,
    get_rate_improvement_suggestions worst_case_profile = Text text
    /\ NoDup (suggestions_of text).
Proof.
  eexists. split; [vm_compute; reflexivity |].
  apply (suggestion_list worst_case_profile). vm_compute. reflexivity.
Defined.

Lemma displayed_rate_within_bounds_witness :
  exists r, calculate_dynamic_pricing example_profile 0 0 = Text r
    /\ exists tenths,
         read_percentage (format_percentage (final_interest_rate r))
         = Some (false, tenths)
         /\ (80 <= tenths)%N /\ (tenths <= 180)%N.
Proof.
  eexists. split; [vm_compute; reflexivity |].
  apply (displayed_rate_within_bounds example_profile 0 0).
  vm_compute. reflexivity.
Defined.

Lemma explanation_tags_witness :
  In ExcellentBankingRelationship
    (Binary64.explanation_factors example_profile 500000 24).
Proof.
  apply (proj1 (explanation_tags example_profile 500000 24)).
  vm_compute. reflexivity.
Defined.

